(** * E-Waste Management: a shallow embedding of [app.py]

    The application is one Flask module: two SQLAlchemy models ([User],
    [Pickup]), a Flask-Login session and ten view functions registered on
    the URL map of [create_app].  This file embeds the models as records,
    the two tables as lists of rows in insertion order, the view functions
    as computations in a state-and-exception monad over the database and
    the client's session, and the URL map as the table of the functions
    that [create_app] really registers (decorators are applied bottom-up,
    so the order in which [@login_required] and [@app.get]/[@app.post] are
    written decides whether the registered function is the guarded one).

    A Python string is a [string] holding the UTF-8 bytes of its text.
    The storage is the default one, a SQLite file:
    an integer primary key is the rowid, the declared lengths of the
    string columns are not enforced, and rows come back in insertion
    order when a query gives none. *)

From stdpp Require Import base option list sorting strings pretty.
From Stdlib Require Import ZArith Ascii Lia.

Open Scope string_scope.
Open Scope list_scope.
Open Scope Z_scope.

(** ** Python string methods used by the views

    A Python string is kept as the UTF-8 bytes of its text.  [strip] and
    [lower] work on the code points, as [str.strip()] and [str.lower()]
    of CPython 3.11 (Unicode 14.0) do. *)

Module Py.

(** One element of a decoded string: a code point, or a byte that is not
    part of well-formed UTF-8 (it stands for no text and is kept as it
    is). *)
Inductive item := Cp (c : Z) | Raw (b : ascii).

Definition byte (b : ascii) : Z := Z.of_nat (Ascii.nat_of_ascii b).

Definition chr (n : Z) : ascii := Ascii.ascii_of_nat (Z.to_nat n).

(** A continuation byte, 0x80..0xBF. *)
Definition cont (b : ascii) : bool := (128 <=? byte b) && (byte b <=? 191).

Definition value2 (b1 b2 : ascii) : Z := (byte b1 - 192) * 64 + (byte b2 - 128).

Definition value3 (b1 b2 b3 : ascii) : Z :=
  (byte b1 - 224) * 4096 + (byte b2 - 128) * 64 + (byte b3 - 128).

Definition value4 (b1 b2 b3 b4 : ascii) : Z :=
  (byte b1 - 240) * 262144 + (byte b2 - 128) * 4096 + (byte b3 - 128) * 64
  + (byte b4 - 128).

(** Well-formed sequences of two, three and four bytes: shortest form,
    no surrogate, at most U+10FFFF. *)
Definition seq2 (b1 b2 : ascii) : bool :=
  (194 <=? byte b1) && (byte b1 <=? 223) && cont b2.

Definition seq3 (b1 b2 b3 : ascii) : bool :=
  (224 <=? byte b1) && (byte b1 <=? 239) && cont b2 && cont b3
  && (2048 <=? value3 b1 b2 b3)
  && negb ((55296 <=? value3 b1 b2 b3) && (value3 b1 b2 b3 <=? 57343)).

Definition seq4 (b1 b2 b3 b4 : ascii) : bool :=
  (240 <=? byte b1) && (byte b1 <=? 244) && cont b2 && cont b3 && cont b4
  && (65536 <=? value4 b1 b2 b3 b4) && (value4 b1 b2 b3 b4 <=? 1114111).

Fixpoint decode (s : string) : list item :=
  match s with
  | EmptyString => []
  | String b1 s1 =>
      if byte b1 <? 128 then Cp (byte b1) :: decode s1
      else
        match s1 with
        | String b2 s2 =>
            if seq2 b1 b2 then Cp (value2 b1 b2) :: decode s2
            else
              match s2 with
              | String b3 s3 =>
                  if seq3 b1 b2 b3 then Cp (value3 b1 b2 b3) :: decode s3
                  else
                    match s3 with
                    | String b4 s4 =>
                        if seq4 b1 b2 b3 b4
                        then Cp (value4 b1 b2 b3 b4) :: decode s4
                        else Raw b1 :: decode s1
                    | EmptyString => Raw b1 :: decode s1
                    end
              | EmptyString => Raw b1 :: decode s1
              end
        | EmptyString => [Raw b1]
        end
  end.

Definition encode_cp (c : Z) : string :=
  if c <? 128 then String (chr c) EmptyString
  else if c <? 2048 then
    String (chr (192 + c / 64)) (String (chr (128 + c mod 64)) EmptyString)
  else if c <? 65536 then
    String (chr (224 + c / 4096))
      (String (chr (128 + (c / 64) mod 64))
         (String (chr (128 + c mod 64)) EmptyString))
  else
    String (chr (240 + c / 262144))
      (String (chr (128 + (c / 4096) mod 64))
         (String (chr (128 + (c / 64) mod 64))
            (String (chr (128 + c mod 64)) EmptyString))).

Fixpoint encode (l : list item) : string :=
  match l with
  | [] => EmptyString
  | Cp c :: l' => encode_cp c +:+ encode l'
  | Raw b :: l' => String b (encode l')
  end.

Fixpoint in_ranges (ranges : list (Z * Z)) (c : Z) : bool :=
  match ranges with
  | [] => false
  | (lo, hi) :: ranges' => ((lo <=? c) && (c <=? hi)) || in_ranges ranges' c
  end.

(** The white space of [str.strip()] and [str.isspace()]. *)
Definition space_ranges : list (Z * Z) :=
  [(9, 13); (28, 32); (133, 133); (160, 160); (5760, 5760); (8192, 8202);
   (8232, 8233); (8239, 8239); (8287, 8287); (12288, 12288)].

Definition isspace (c : Z) : bool := in_ranges space_ranges c.

Definition space_item (i : item) : bool :=
  match i with Cp c => isspace c | Raw _ => false end.

Fixpoint lstrip_items (l : list item) : list item :=
  match l with
  | i :: l' => if space_item i then lstrip_items l' else l
  | [] => []
  end.

Definition rstrip_items (l : list item) : list item :=
  rev (lstrip_items (rev l)).

(** [s.strip()] *)
Definition strip (s : string) : string :=
  encode (rstrip_items (lstrip_items (decode s))).

(** The simple lowercase mappings: [(lo, hi, step, delta)] sends every
    code point [lo], [lo + step], ... up to [hi] to itself plus
    [delta]. *)
Definition lower_table : list (Z * Z * Z * Z) :=
  [
   (65, 90, 1, 32); (192, 214, 1, 32); (216, 222, 1, 32);
   (256, 302, 2, 1); (306, 310, 2, 1); (313, 327, 2, 1);
   (330, 374, 2, 1); (376, 376, 1, -121); (377, 381, 2, 1);
   (385, 385, 1, 210); (386, 388, 2, 1); (390, 390, 1, 206);
   (391, 391, 1, 1); (393, 394, 1, 205); (395, 395, 1, 1);
   (398, 398, 1, 79); (399, 399, 1, 202); (400, 400, 1, 203);
   (401, 401, 1, 1); (403, 403, 1, 205); (404, 404, 1, 207);
   (406, 406, 1, 211); (407, 407, 1, 209); (408, 408, 1, 1);
   (412, 412, 1, 211); (413, 413, 1, 213); (415, 415, 1, 214);
   (416, 420, 2, 1); (422, 422, 1, 218); (423, 423, 1, 1);
   (425, 425, 1, 218); (428, 428, 1, 1); (430, 430, 1, 218);
   (431, 431, 1, 1); (433, 434, 1, 217); (435, 437, 2, 1);
   (439, 439, 1, 219); (440, 440, 1, 1); (444, 444, 1, 1);
   (452, 452, 1, 2); (453, 453, 1, 1); (455, 455, 1, 2);
   (456, 456, 1, 1); (458, 458, 1, 2); (459, 475, 2, 1);
   (478, 494, 2, 1); (497, 497, 1, 2); (498, 500, 2, 1);
   (502, 502, 1, -97); (503, 503, 1, -56); (504, 542, 2, 1);
   (544, 544, 1, -130); (546, 562, 2, 1); (570, 570, 1, 10795);
   (571, 571, 1, 1); (573, 573, 1, -163); (574, 574, 1, 10792);
   (577, 577, 1, 1); (579, 579, 1, -195); (580, 580, 1, 69);
   (581, 581, 1, 71); (582, 590, 2, 1); (880, 882, 2, 1);
   (886, 886, 1, 1); (895, 895, 1, 116); (902, 902, 1, 38);
   (904, 906, 1, 37); (908, 908, 1, 64); (910, 911, 1, 63);
   (913, 929, 1, 32); (932, 939, 1, 32); (975, 975, 1, 8);
   (984, 1006, 2, 1); (1012, 1012, 1, -60); (1015, 1015, 1, 1);
   (1017, 1017, 1, -7); (1018, 1018, 1, 1); (1021, 1023, 1, -130);
   (1024, 1039, 1, 80); (1040, 1071, 1, 32); (1120, 1152, 2, 1);
   (1162, 1214, 2, 1); (1216, 1216, 1, 15); (1217, 1229, 2, 1);
   (1232, 1326, 2, 1); (1329, 1366, 1, 48); (4256, 4293, 1, 7264);
   (4295, 4295, 1, 7264); (4301, 4301, 1, 7264); (5024, 5103, 1, 38864);
   (5104, 5109, 1, 8); (7312, 7354, 1, -3008); (7357, 7359, 1, -3008);
   (7680, 7828, 2, 1); (7838, 7838, 1, -7615); (7840, 7934, 2, 1);
   (7944, 7951, 1, -8); (7960, 7965, 1, -8); (7976, 7983, 1, -8);
   (7992, 7999, 1, -8); (8008, 8013, 1, -8); (8025, 8031, 2, -8);
   (8040, 8047, 1, -8); (8072, 8079, 1, -8); (8088, 8095, 1, -8);
   (8104, 8111, 1, -8); (8120, 8121, 1, -8); (8122, 8123, 1, -74);
   (8124, 8124, 1, -9); (8136, 8139, 1, -86); (8140, 8140, 1, -9);
   (8152, 8153, 1, -8); (8154, 8155, 1, -100); (8168, 8169, 1, -8);
   (8170, 8171, 1, -112); (8172, 8172, 1, -7); (8184, 8185, 1, -128);
   (8186, 8187, 1, -126); (8188, 8188, 1, -9); (8486, 8486, 1, -7517);
   (8490, 8490, 1, -8383); (8491, 8491, 1, -8262); (8498, 8498, 1, 28);
   (8544, 8559, 1, 16); (8579, 8579, 1, 1); (9398, 9423, 1, 26);
   (11264, 11311, 1, 48); (11360, 11360, 1, 1); (11362, 11362, 1, -10743);
   (11363, 11363, 1, -3814); (11364, 11364, 1, -10727); (11367, 11371, 2, 1);
   (11373, 11373, 1, -10780); (11374, 11374, 1, -10749); (11375, 11375, 1, -10783);
   (11376, 11376, 1, -10782); (11378, 11378, 1, 1); (11381, 11381, 1, 1);
   (11390, 11391, 1, -10815); (11392, 11490, 2, 1); (11499, 11501, 2, 1);
   (11506, 11506, 1, 1); (42560, 42604, 2, 1); (42624, 42650, 2, 1);
   (42786, 42798, 2, 1); (42802, 42862, 2, 1); (42873, 42875, 2, 1);
   (42877, 42877, 1, -35332); (42878, 42886, 2, 1); (42891, 42891, 1, 1);
   (42893, 42893, 1, -42280); (42896, 42898, 2, 1); (42902, 42920, 2, 1);
   (42922, 42922, 1, -42308); (42923, 42923, 1, -42319); (42924, 42924, 1, -42315);
   (42925, 42925, 1, -42305); (42926, 42926, 1, -42308); (42928, 42928, 1, -42258);
   (42929, 42929, 1, -42282); (42930, 42930, 1, -42261); (42931, 42931, 1, 928);
   (42932, 42946, 2, 1); (42948, 42948, 1, -48); (42949, 42949, 1, -42307);
   (42950, 42950, 1, -35384); (42951, 42953, 2, 1); (42960, 42960, 1, 1);
   (42966, 42968, 2, 1); (42997, 42997, 1, 1); (65313, 65338, 1, 32);
   (66560, 66599, 1, 40); (66736, 66771, 1, 40); (66928, 66938, 1, 39);
   (66940, 66954, 1, 39); (66956, 66962, 1, 39); (66964, 66965, 1, 39);
   (68736, 68786, 1, 64); (71840, 71871, 1, 32); (93760, 93791, 1, 32);
   (125184, 125217, 1, 34)
  ].

(** The code points that are cased and not case-ignorable: the rule for
    the capital sigma asks whether a code point is cased only when it is
    not case-ignorable. *)
Definition cased_ranges : list (Z * Z) :=
  [
   (65, 90); (97, 122); (170, 170); (181, 181); (186, 186);
   (192, 214); (216, 246); (248, 442); (444, 447); (452, 659);
   (661, 687); (880, 883); (886, 887); (891, 893); (895, 895);
   (902, 902); (904, 906); (908, 908); (910, 929); (931, 1013);
   (1015, 1153); (1162, 1327); (1329, 1366); (1376, 1416); (4256, 4293);
   (4295, 4295); (4301, 4301); (4304, 4346); (4349, 4351); (5024, 5109);
   (5112, 5117); (7296, 7304); (7312, 7354); (7357, 7359); (7424, 7467);
   (7531, 7543); (7545, 7578); (7680, 7957); (7960, 7965); (7968, 8005);
   (8008, 8013); (8016, 8023); (8025, 8025); (8027, 8027); (8029, 8029);
   (8031, 8061); (8064, 8116); (8118, 8124); (8126, 8126); (8130, 8132);
   (8134, 8140); (8144, 8147); (8150, 8155); (8160, 8172); (8178, 8180);
   (8182, 8188); (8450, 8450); (8455, 8455); (8458, 8467); (8469, 8469);
   (8473, 8477); (8484, 8484); (8486, 8486); (8488, 8488); (8490, 8493);
   (8495, 8500); (8505, 8505); (8508, 8511); (8517, 8521); (8526, 8526);
   (8544, 8575); (8579, 8580); (9398, 9449); (11264, 11387); (11390, 11492);
   (11499, 11502); (11506, 11507); (11520, 11557); (11559, 11559); (11565, 11565);
   (42560, 42605); (42624, 42651); (42786, 42863); (42865, 42887); (42891, 42894);
   (42896, 42954); (42960, 42961); (42963, 42963); (42965, 42969); (42997, 42998);
   (43002, 43002); (43824, 43866); (43872, 43880); (43888, 43967); (64256, 64262);
   (64275, 64279); (65313, 65338); (65345, 65370); (66560, 66639); (66736, 66771);
   (66776, 66811); (66928, 66938); (66940, 66954); (66956, 66962); (66964, 66965);
   (66967, 66977); (66979, 66993); (66995, 67001); (67003, 67004); (68736, 68786);
   (68800, 68850); (71840, 71903); (93760, 93823); (119808, 119892); (119894, 119964);
   (119966, 119967); (119970, 119970); (119973, 119974); (119977, 119980); (119982, 119993);
   (119995, 119995); (119997, 120003); (120005, 120069); (120071, 120074); (120077, 120084);
   (120086, 120092); (120094, 120121); (120123, 120126); (120128, 120132); (120134, 120134);
   (120138, 120144); (120146, 120485); (120488, 120512); (120514, 120538); (120540, 120570);
   (120572, 120596); (120598, 120628); (120630, 120654); (120656, 120686); (120688, 120712);
   (120714, 120744); (120746, 120770); (120772, 120779); (122624, 122633); (122635, 122654);
   (125184, 125251); (127280, 127305); (127312, 127337); (127344, 127369)
  ].

(** The case-ignorable code points. *)
Definition case_ignorable_ranges : list (Z * Z) :=
  [
   (39, 39); (46, 46); (58, 58); (94, 94); (96, 96);
   (168, 168); (173, 173); (175, 175); (180, 180); (183, 184);
   (688, 879); (884, 885); (890, 890); (900, 901); (903, 903);
   (1155, 1161); (1369, 1369); (1375, 1375); (1425, 1469); (1471, 1471);
   (1473, 1474); (1476, 1477); (1479, 1479); (1524, 1524); (1536, 1541);
   (1552, 1562); (1564, 1564); (1600, 1600); (1611, 1631); (1648, 1648);
   (1750, 1757); (1759, 1768); (1770, 1773); (1807, 1807); (1809, 1809);
   (1840, 1866); (1958, 1968); (2027, 2037); (2042, 2042); (2045, 2045);
   (2070, 2093); (2137, 2139); (2184, 2184); (2192, 2193); (2200, 2207);
   (2249, 2306); (2362, 2362); (2364, 2364); (2369, 2376); (2381, 2381);
   (2385, 2391); (2402, 2403); (2417, 2417); (2433, 2433); (2492, 2492);
   (2497, 2500); (2509, 2509); (2530, 2531); (2558, 2558); (2561, 2562);
   (2620, 2620); (2625, 2626); (2631, 2632); (2635, 2637); (2641, 2641);
   (2672, 2673); (2677, 2677); (2689, 2690); (2748, 2748); (2753, 2757);
   (2759, 2760); (2765, 2765); (2786, 2787); (2810, 2815); (2817, 2817);
   (2876, 2876); (2879, 2879); (2881, 2884); (2893, 2893); (2901, 2902);
   (2914, 2915); (2946, 2946); (3008, 3008); (3021, 3021); (3072, 3072);
   (3076, 3076); (3132, 3132); (3134, 3136); (3142, 3144); (3146, 3149);
   (3157, 3158); (3170, 3171); (3201, 3201); (3260, 3260); (3263, 3263);
   (3270, 3270); (3276, 3277); (3298, 3299); (3328, 3329); (3387, 3388);
   (3393, 3396); (3405, 3405); (3426, 3427); (3457, 3457); (3530, 3530);
   (3538, 3540); (3542, 3542); (3633, 3633); (3636, 3642); (3654, 3662);
   (3761, 3761); (3764, 3772); (3782, 3782); (3784, 3789); (3864, 3865);
   (3893, 3893); (3895, 3895); (3897, 3897); (3953, 3966); (3968, 3972);
   (3974, 3975); (3981, 3991); (3993, 4028); (4038, 4038); (4141, 4144);
   (4146, 4151); (4153, 4154); (4157, 4158); (4184, 4185); (4190, 4192);
   (4209, 4212); (4226, 4226); (4229, 4230); (4237, 4237); (4253, 4253);
   (4348, 4348); (4957, 4959); (5906, 5908); (5938, 5939); (5970, 5971);
   (6002, 6003); (6068, 6069); (6071, 6077); (6086, 6086); (6089, 6099);
   (6103, 6103); (6109, 6109); (6155, 6159); (6211, 6211); (6277, 6278);
   (6313, 6313); (6432, 6434); (6439, 6440); (6450, 6450); (6457, 6459);
   (6679, 6680); (6683, 6683); (6742, 6742); (6744, 6750); (6752, 6752);
   (6754, 6754); (6757, 6764); (6771, 6780); (6783, 6783); (6823, 6823);
   (6832, 6862); (6912, 6915); (6964, 6964); (6966, 6970); (6972, 6972);
   (6978, 6978); (7019, 7027); (7040, 7041); (7074, 7077); (7080, 7081);
   (7083, 7085); (7142, 7142); (7144, 7145); (7149, 7149); (7151, 7153);
   (7212, 7219); (7222, 7223); (7288, 7293); (7376, 7378); (7380, 7392);
   (7394, 7400); (7405, 7405); (7412, 7412); (7416, 7417); (7468, 7530);
   (7544, 7544); (7579, 7679); (8125, 8125); (8127, 8129); (8141, 8143);
   (8157, 8159); (8173, 8175); (8189, 8190); (8203, 8207); (8216, 8217);
   (8228, 8228); (8231, 8231); (8234, 8238); (8288, 8292); (8294, 8303);
   (8305, 8305); (8319, 8319); (8336, 8348); (8400, 8432); (11388, 11389);
   (11503, 11505); (11631, 11631); (11647, 11647); (11744, 11775); (11823, 11823);
   (12293, 12293); (12330, 12333); (12337, 12341); (12347, 12347); (12441, 12446);
   (12540, 12542); (40981, 40981); (42232, 42237); (42508, 42508); (42607, 42610);
   (42612, 42621); (42623, 42623); (42652, 42655); (42736, 42737); (42752, 42785);
   (42864, 42864); (42888, 42890); (42994, 42996); (43000, 43001); (43010, 43010);
   (43014, 43014); (43019, 43019); (43045, 43046); (43052, 43052); (43204, 43205);
   (43232, 43249); (43263, 43263); (43302, 43309); (43335, 43345); (43392, 43394);
   (43443, 43443); (43446, 43449); (43452, 43453); (43471, 43471); (43493, 43494);
   (43561, 43566); (43569, 43570); (43573, 43574); (43587, 43587); (43596, 43596);
   (43632, 43632); (43644, 43644); (43696, 43696); (43698, 43700); (43703, 43704);
   (43710, 43711); (43713, 43713); (43741, 43741); (43756, 43757); (43763, 43764);
   (43766, 43766); (43867, 43871); (43881, 43883); (44005, 44005); (44008, 44008);
   (44013, 44013); (64286, 64286); (64434, 64450); (65024, 65039); (65043, 65043);
   (65056, 65071); (65106, 65106); (65109, 65109); (65279, 65279); (65287, 65287);
   (65294, 65294); (65306, 65306); (65342, 65342); (65344, 65344); (65392, 65392);
   (65438, 65439); (65507, 65507); (65529, 65531); (66045, 66045); (66272, 66272);
   (66422, 66426); (67456, 67461); (67463, 67504); (67506, 67514); (68097, 68099);
   (68101, 68102); (68108, 68111); (68152, 68154); (68159, 68159); (68325, 68326);
   (68900, 68903); (69291, 69292); (69446, 69456); (69506, 69509); (69633, 69633);
   (69688, 69702); (69744, 69744); (69747, 69748); (69759, 69761); (69811, 69814);
   (69817, 69818); (69821, 69821); (69826, 69826); (69837, 69837); (69888, 69890);
   (69927, 69931); (69933, 69940); (70003, 70003); (70016, 70017); (70070, 70078);
   (70089, 70092); (70095, 70095); (70191, 70193); (70196, 70196); (70198, 70199);
   (70206, 70206); (70367, 70367); (70371, 70378); (70400, 70401); (70459, 70460);
   (70464, 70464); (70502, 70508); (70512, 70516); (70712, 70719); (70722, 70724);
   (70726, 70726); (70750, 70750); (70835, 70840); (70842, 70842); (70847, 70848);
   (70850, 70851); (71090, 71093); (71100, 71101); (71103, 71104); (71132, 71133);
   (71219, 71226); (71229, 71229); (71231, 71232); (71339, 71339); (71341, 71341);
   (71344, 71349); (71351, 71351); (71453, 71455); (71458, 71461); (71463, 71467);
   (71727, 71735); (71737, 71738); (71995, 71996); (71998, 71998); (72003, 72003);
   (72148, 72151); (72154, 72155); (72160, 72160); (72193, 72202); (72243, 72248);
   (72251, 72254); (72263, 72263); (72273, 72278); (72281, 72283); (72330, 72342);
   (72344, 72345); (72752, 72758); (72760, 72765); (72767, 72767); (72850, 72871);
   (72874, 72880); (72882, 72883); (72885, 72886); (73009, 73014); (73018, 73018);
   (73020, 73021); (73023, 73029); (73031, 73031); (73104, 73105); (73109, 73109);
   (73111, 73111); (73459, 73460); (78896, 78904); (92912, 92916); (92976, 92982);
   (92992, 92995); (94031, 94031); (94095, 94111); (94176, 94177); (94179, 94180);
   (110576, 110579); (110581, 110587); (110589, 110590); (113821, 113822); (113824, 113827);
   (118528, 118573); (118576, 118598); (119143, 119145); (119155, 119170); (119173, 119179);
   (119210, 119213); (119362, 119364); (121344, 121398); (121403, 121452); (121461, 121461);
   (121476, 121476); (121499, 121503); (121505, 121519); (122880, 122886); (122888, 122904);
   (122907, 122913); (122915, 122916); (122918, 122922); (123184, 123197); (123566, 123566);
   (123628, 123631); (125136, 125142); (125252, 125259); (127995, 127999); (917505, 917505);
   (917536, 917631); (917760, 917999)
  ].

Fixpoint lower_lookup (table : list (Z * Z * Z * Z)) (c : Z) : option Z :=
  match table with
  | [] => None
  | (lo, hi, step, delta) :: table' =>
      if (lo <=? c) && (c <=? hi) && ((c - lo) mod step =? 0)
      then Some (c + delta)
      else lower_lookup table' c
  end.

(** The lowercase of one code point out of context; U+0130 is the one
    code point whose lowercase has two. *)
Definition lower_cp (c : Z) : list Z :=
  if c =? 304 then [105; 775]
  else match lower_lookup lower_table c with
       | Some d => [d]
       | None => [c]
       end.

Definition case_ignorable (i : item) : bool :=
  match i with Cp c => in_ranges case_ignorable_ranges c | Raw _ => false end.

Definition cased (i : item) : bool :=
  match i with Cp c => in_ranges cased_ranges c | Raw _ => false end.

Fixpoint skip_ignorable (l : list item) : list item :=
  match l with
  | i :: l' => if case_ignorable i then skip_ignorable l' else l
  | [] => []
  end.

(** Whether a capital sigma is at the end of a word: a cased letter comes
    before it and none after it, case-ignorable code points skipped on
    both sides.  [before] is what precedes the sigma, nearest first. *)
Definition final_sigma (before after : list item) : bool :=
  match skip_ignorable before with
  | i :: _ =>
      cased i
      && match skip_ignorable after with
         | j :: _ => negb (cased j)
         | [] => true
         end
  | [] => false
  end.

Fixpoint lower_items (before l : list item) : list item :=
  match l with
  | [] => []
  | Cp c :: l' =>
      (if c =? 931
       then [Cp (if final_sigma before l' then 962 else 963)]
       else Cp <$> lower_cp c)
      ++ lower_items (Cp c :: before) l'
  | Raw b :: l' => Raw b :: lower_items (Raw b :: before) l'
  end.

(** [s.lower()] *)
Definition lower (s : string) : string := encode (lower_items [] (decode s)).

Arguments strip : simpl never.
Arguments lower : simpl never.

(** Truth value of a string: [bool(s)], [if s], [not s]. *)
Definition truthy (s : string) : bool :=
  match s with EmptyString => false | _ => true end.

(** [x or ""] for [x] a string or [None]. *)
Definition or_empty (x : option string) : string := default "" x.

(** [bool(x)] for [x] a string or [None]. *)
Definition bool_of (x : option string) : bool :=
  match x with Some s => truthy s | None => false end.

(** [str(n)], as Jinja prints an integer. *)
Definition str_of_int (n : Z) : string := pretty n.

End Py.

(** ** The submitted form

    [request.form] is a multi-dict: a field may occur several times and
    [get] answers the first occurrence, [None] when there is none. *)

Definition Form : Type := list (string * string).

Fixpoint form_get (f : Form) (k : string) : option string :=
  match f with
  | [] => None
  | (k', v) :: f' => if String.eqb k' k then Some v else form_get f' k
  end.

(** Whether a field of that name was submitted at all. *)
Definition form_has (f : Form) (k : string) : bool :=
  existsb (λ kv, String.eqb kv.1 k) f.

(** The methods that reach a view.  Werkzeug adds HEAD to every rule
    that allows GET and runs the same view for it (the body is then left
    off the wire); the other methods are answered without a view. *)
Inductive Method := GET | POST | HEAD.

(** ** The models *)

Module User.
Record t := {
  id : Z;
  email : string;
  password_hash : string;
  is_admin : bool
}.
End User.

Module Pickup.
Record t := {
  id : Z;
  user_id : Z;
  name : string;
  email : string;
  address : string;
  item : string;
  date : string;
  status : string
}.

Definition set_status (p : t) (s : string) : t :=
  {| id := id p; user_id := user_id p; name := name p; email := email p;
     address := address p; item := item p; date := date p; status := s |}.
End Pickup.

(** The two tables, rows in insertion order. *)
Record DB := {
  users : list User.t;
  pickups : list Pickup.t
}.

(** The integer primary key given to a new row: one more than the
    largest key in the table, 1 for an empty table. *)
Definition next_rowid (ids : list Z) : Z := 1 + foldr Z.max 0 ids.

(** [Pickup.id.desc()]: [p] may come before [q]. *)
Definition id_desc (p q : Pickup.t) : Prop := Pickup.id q ≤ Pickup.id p.

Global Instance id_desc_dec : RelDecision id_desc.
Proof. intros p q. unfold id_desc. apply _. Defined.

(** ** Responses *)

Inductive Template :=
  | home_html | centers_html | schedule_html | auth_html
  | confirm_html | admin_html | my_pickups_html.

Inductive Value :=
  | VStr (s : string)
  | VInt (n : Z)
  | VRows (rows : list Pickup.t).

Inductive Response :=
  | Rendered (tpl : Template) (ctx : list (string * Value))
  | Redirect (location : string)
  | ErrorPage (code : Z).

Definition layout_css : string :=
  "/* Tailwind handles most styling; keep minimal overrides if needed */".

Definition render_template_string (tpl : Template) (ctx : list (string * Value))
  : Response := Rendered tpl (ctx ++ [("layout_css", VStr layout_css)]).

(** [url_for] on the endpoints without arguments. *)
Definition url_for (endpoint : string) : string :=
  if String.eqb endpoint "index" then "/"
  else if String.eqb endpoint "centers" then "/centers"
  else if String.eqb endpoint "schedule" then "/schedule"
  else if String.eqb endpoint "schedule_post" then "/schedule"
  else if String.eqb endpoint "admin_requests" then "/requests"
  else if String.eqb endpoint "register" then "/register"
  else if String.eqb endpoint "login" then "/login"
  else if String.eqb endpoint "logout" then "/logout"
  else if String.eqb endpoint "my_pickups" then "/my-pickups"
  else "".

Definition redirect (location : string) : Response := Redirect location.

(** The heading of [confirm_html], the one place of that template where
    the context is used besides the style sheet:
    [Pickup request #{{ rid }} created for {{ name }}].  Jinja escapes
    the five HTML characters of a string value. *)
Definition escape_char (c : ascii) : string :=
  if Ascii.eqb c "&"%char then "&amp;"
  else if Ascii.eqb c "<"%char then "&lt;"
  else if Ascii.eqb c ">"%char then "&gt;"
  else if Ascii.eqb c "'"%char then "&#39;"
  else if (Ascii.nat_of_ascii c =? 34)%nat then "&#34;"
  else String c EmptyString.

Fixpoint escape (s : string) : string :=
  match s with
  | String c s' => escape_char c +:+ escape s'
  | EmptyString => EmptyString
  end.

Definition render_value (v : Value) : string :=
  match v with
  | VStr s => escape s
  | VInt n => Py.str_of_int n
  | VRows _ => ""
  end.

Fixpoint ctx_get (ctx : list (string * Value)) (k : string) : string :=
  match ctx with
  | [] => ""
  | (k', v) :: ctx' => if String.eqb k' k then render_value v else ctx_get ctx' k
  end.

Definition confirm_heading (ctx : list (string * Value)) : string :=
  "Pickup request #" +:+ ctx_get ctx "rid" +:+ " created for " +:+ ctx_get ctx "name".

(** The text a response shows for the templates whose body depends on
    the context through scalar values; the fixed markup around it is
    left out. *)
Definition body_text (r : Response) : string :=
  match r with
  | Rendered confirm_html ctx => confirm_heading ctx
  | _ => ""
  end.

(** [s] occurs in [t]. *)
Definition occurs_in (s t : string) : Prop :=
  ∃ pre post, t = pre +:+ s +:+ post.

(** ** Requests *)

(** The URLs the map of [create_app] matches; [<int:pickup_id>] has been
    converted. *)
Inductive Path :=
  | path_root                       (* /                          *)
  | path_centers                    (* /centers                   *)
  | path_schedule                   (* /schedule                  *)
  | path_requests                   (* /requests                  *)
  | path_status (pickup_id : Z)     (* /requests/<pickup_id>/status *)
  | path_register                   (* /register                  *)
  | path_login                      (* /login                     *)
  | path_logout                     (* /logout                    *)
  | path_my_pickups.                (* /my-pickups                *)

(** What a view reads from the request: method, URL, the form, and the
    salt that [generate_password_hash] draws while it is served. *)
Record Request := {
  method : Method;
  path : Path;
  form : Form;
  salt : string
}.

(** ** Computations of a view

    A view reads and writes the database and the session of the client
    and may raise; what was committed before an exception stays. *)

Inductive Exn :=
  | AttributeError (attr : string)
  | OverflowError
  | HTTPException (code : Z).

Record World := {
  db : DB;
  session : option Z       (* the user id Flask-Login keeps in the session *)
}.

Definition M (A : Type) : Type := World → (Exn + A) * World.

Global Instance M_ret : MRet M := λ A a w, (inr a, w).

Global Instance M_bind : MBind M := λ A B f m w,
  match m w with
  | (inr a, w') => f a w'
  | (inl e, w') => (inl e, w')
  end.

Definition raise {A} (e : Exn) : M A := λ w, (inl e, w).
Definition get_world : M World := λ w, (inr w, w).
Definition put_world (w : World) : M unit := λ _, (inr tt, w).

(** ** Queries and commits *)

(** [User.query.get(user_id)] *)
Definition User_query_get (user_id : Z) : M (option User.t) :=
  w ← get_world;
  mret (find (λ u, User.id u =? user_id) (users (db w))).

(** The first row of the users table with that email, compared byte by
    byte. *)
Definition user_by_email (d : DB) (email : string) : option User.t :=
  find (λ u, String.eqb (User.email u) email) (users d).

(** [User.query.filter_by(email=email).first()] *)
Definition User_query_filter_by_email_first (email : string) : M (option User.t) :=
  w ← get_world;
  mret (user_by_email (db w) email).

(** The largest integer SQLite stores, and so the largest key: 2^63 - 1. *)
Definition max_rowid : Z := 9223372036854775807.

(** [Pickup.query.get_or_404(pickup_id)].  The key is bound as a
    parameter of the SELECT; for an integer above [max_rowid] the driver
    raises [OverflowError] before anything is looked up. *)
Definition Pickup_query_get_or_404 (pickup_id : Z) : M Pickup.t :=
  w ← get_world;
  if max_rowid <? pickup_id then raise OverflowError
  else
    match find (λ p, Pickup.id p =? pickup_id) (pickups (db w)) with
    | Some p => mret p
    | None => raise (HTTPException 404)
    end.

(** [Pickup.query.order_by(Pickup.id.desc()).all()] *)
Definition Pickup_query_order_by_id_desc_all : M (list Pickup.t) :=
  w ← get_world;
  mret (merge_sort id_desc (pickups (db w))).

(** [Pickup.query.filter_by(user_id=uid).order_by(Pickup.id.desc()).all()] *)
Definition Pickup_query_filter_by_user_id_order_by_id_desc_all (uid : Z)
  : M (list Pickup.t) :=
  w ← get_world;
  mret (merge_sort id_desc (filter (λ p, Pickup.user_id p = uid) (pickups (db w)))).

(** [db.session.add(u); db.session.commit()] for a new user: the row
    gets its key and is appended; the object then carries the key.  The
    unique constraint on [email] is not checked here: [register] adds a
    row only after its own lookup found none with that email, so the
    constraint never fires ([handle_preserves_wf] below). *)
Definition db_session_add_commit_user
    (email password_hash : string) (is_admin : bool) : M User.t :=
  w ← get_world;
  let u := {| User.id := next_rowid (User.id <$> users (db w));
              User.email := email;
              User.password_hash := password_hash;
              User.is_admin := is_admin |} in
  put_world {| db := {| users := users (db w) ++ [u]; pickups := pickups (db w) |};
               session := session w |};;
  mret u.

(** [db.session.add(p); db.session.commit()] for a new pickup. *)
Definition db_session_add_commit_pickup
    (user_id : Z) (name email address item date status : string) : M Pickup.t :=
  w ← get_world;
  let p := {| Pickup.id := next_rowid (Pickup.id <$> pickups (db w));
              Pickup.user_id := user_id; Pickup.name := name;
              Pickup.email := email; Pickup.address := address;
              Pickup.item := item; Pickup.date := date;
              Pickup.status := status |} in
  put_world {| db := {| users := users (db w); pickups := pickups (db w) ++ [p] |};
               session := session w |};;
  mret p.

(** [p.status = new_status; db.session.commit()]: the row of [p]'s key
    is updated in place. *)
Definition set_status_commit (p : Pickup.t) (new_status : string) : M unit :=
  w ← get_world;
  put_world
    {| db := {| users := users (db w);
                pickups := (λ q, if Pickup.id q =? Pickup.id p
                                 then Pickup.set_status q new_status else q)
                           <$> pickups (db w) |};
       session := session w |}.

(** ** Flask-Login *)

(** The [user_loader] of the application. *)
Definition load_user (user_id : Z) : M (option User.t) := User_query_get user_id.

(** [current_user]: the user the session names, if the loader finds it;
    [None] stands for the anonymous user. *)
Definition current_user : M (option User.t) :=
  w ← get_world;
  match session w with
  | Some user_id => load_user user_id
  | None => mret None
  end.

(** [current_user.<attr>]: the anonymous user has neither [id] nor
    [is_admin]. *)
Definition current_user_attr {A} (attr : string) (proj : User.t → A) : M A :=
  cu ← current_user;
  match cu with
  | Some u => mret (proj u)
  | None => raise (AttributeError attr)
  end.

Definition login_user (u : User.t) : M unit :=
  w ← get_world;
  put_world {| db := db w; session := Some (User.id u) |}.

Definition logout_user : M unit :=
  w ← get_world;
  put_world {| db := db w; session := None |}.

(** [login_required(view)]: with [login_view = "login"], an anonymous
    client is sent to the login page (the [next] parameter of that URL is
    not modelled). *)
Definition login_required (view : M Response) : M Response :=
  cu ← current_user;
  match cu with
  | Some _ => view
  | None => mret (redirect (url_for "login"))
  end.

(** ** Decorator stacks

    The decorators above a [def], top line first.  Python applies them
    from the bottom.  The route decorator stores the function it is
    handed in [app.view_functions] and returns it unchanged, so the
    registered function carries the decorators written below the route
    line and none of those written above it. *)
Inductive Decorator := route_dec | login_required_dec.

Definition apply_decorator (d : Decorator) (view : M Response) : M Response :=
  match d with
  | route_dec => view
  | login_required_dec => login_required view
  end.

Fixpoint registered (stack : list Decorator) (view : M Response) : M Response :=
  match stack with
  | [] => view
  | route_dec :: below => foldr apply_decorator view below
  | login_required_dec :: below => registered below view
  end.

(** ** The views of [create_app] *)

Definition field (request : Request) (k : string) : string :=
  Py.strip (Py.or_empty (form_get (form request) k)).

Definition index : M Response := mret (render_template_string home_html []).

Definition centers : M Response := mret (render_template_string centers_html []).

Definition schedule : M Response := mret (render_template_string schedule_html []).

Definition schedule_post (request : Request) : M Response :=
  let name := field request "name" in
  let email := field request "email" in
  let address := field request "address" in
  let item := field request "item" in
  let date := field request "date" in
  uid ← current_user_attr "id" User.id;
  p ← db_session_add_commit_pickup uid name email address item date "Scheduled";
  mret (render_template_string confirm_html
          [("rid", VInt (Pickup.id p)); ("name", VStr name)]).

Definition admin_requests : M Response :=
  is_admin ← current_user_attr "is_admin" User.is_admin;
  if negb is_admin then mret (redirect (url_for "index"))
  else
    requests_list ← Pickup_query_order_by_id_desc_all;
    mret (render_template_string admin_html [("requests", VRows requests_list)]).

Definition update_status (request : Request) (pickup_id : Z) : M Response :=
  is_admin ← current_user_attr "is_admin" User.is_admin;
  if negb is_admin then mret (redirect (url_for "index"))
  else
    p ← Pickup_query_get_or_404 pickup_id;
    let new_status := field request "status" in
    (if Py.truthy new_status then set_status_commit p new_status else mret tt);;
    mret (redirect (url_for "admin_requests")).

Definition logout : M Response :=
  logout_user;;
  mret (redirect (url_for "index")).

Definition my_pickups : M Response :=
  uid ← current_user_attr "id" User.id;
  mine ← Pickup_query_filter_by_user_id_order_by_id_desc_all uid;
  mret (render_template_string my_pickups_html [("requests", VRows mine)]).

Definition register_form : Response :=
  render_template_string auth_html [("title", VStr "Register"); ("form", VStr "register")].

Definition login_form : Response :=
  render_template_string auth_html [("title", VStr "Login"); ("form", VStr "login")].

Inductive Endpoint :=
  | ep_index | ep_centers | ep_schedule | ep_schedule_post
  | ep_admin_requests | ep_update_status (pickup_id : Z)
  | ep_register | ep_login | ep_logout | ep_my_pickups.

(** The URL map: which endpoint serves a method on a URL. *)
Definition url_map (m : Method) (p : Path) : option Endpoint :=
  match p, m with
  | path_root, (GET | HEAD) => Some ep_index
  | path_centers, (GET | HEAD) => Some ep_centers
  | path_schedule, (GET | HEAD) => Some ep_schedule
  | path_schedule, POST => Some ep_schedule_post
  | path_requests, (GET | HEAD) => Some ep_admin_requests
  | path_status pickup_id, POST => Some (ep_update_status pickup_id)
  | path_register, _ => Some ep_register
  | path_login, _ => Some ep_login
  | path_logout, (GET | HEAD) => Some ep_logout
  | path_my_pickups, (GET | HEAD) => Some ep_my_pickups
  | _, _ => None
  end.

(** The email and the password as [register] and [login] read them. *)
Definition normalized_email (request : Request) : string :=
  Py.lower (Py.strip (Py.or_empty (form_get (form request) "email"))).

Definition submitted_password (request : Request) : string :=
  Py.or_empty (form_get (form request) "password").

Section App.

(** Werkzeug's password hashing: [generate_password_hash] with the
    salt it draws made explicit, and [check_password_hash pwhash
    password]. *)
Variable generate_password_hash : string → string → string.
Variable check_password_hash : string → string → bool.

(** [User.check_password] *)
Definition check_password (u : User.t) (password : string) : bool :=
  check_password_hash (User.password_hash u) password.

Definition register (request : Request) : M Response :=
  match method request with
  | POST =>
      let email := Py.lower (Py.strip (Py.or_empty (form_get (form request) "email"))) in
      let password := Py.or_empty (form_get (form request) "password") in
      let is_admin := Py.bool_of (form_get (form request) "is_admin") in
      if negb (Py.truthy email) || negb (Py.truthy password) then mret register_form
      else
        existing ← User_query_filter_by_email_first email;
        match existing with
        | Some _ => mret register_form
        | None =>
            (* u = User(...); u.set_password(password) *)
            u ← db_session_add_commit_user email
                  (generate_password_hash (salt request) password) is_admin;
            login_user u;;
            mret (redirect (url_for "index"))
        end
  | GET | HEAD => mret register_form
  end.

Definition login (request : Request) : M Response :=
  match method request with
  | POST =>
      let email := Py.lower (Py.strip (Py.or_empty (form_get (form request) "email"))) in
      let password := Py.or_empty (form_get (form request) "password") in
      u ← User_query_filter_by_email_first email;
      match u with
      | Some u =>
          if check_password u password then
            login_user u;;
            mret (redirect (url_for "index"))
          else mret login_form
      | None => mret login_form
      end
  | GET | HEAD => mret login_form
  end.

(** [app.view_functions], each entry under the decorator stack of its
    [def] in the order the source writes it. *)
Definition view_functions (e : Endpoint) (request : Request) : M Response :=
  match e with
  | ep_index => registered [route_dec] index
  | ep_centers => registered [route_dec] centers
  | ep_schedule => registered [route_dec] schedule
  | ep_schedule_post =>
      registered [login_required_dec; route_dec] (schedule_post request)
  | ep_admin_requests =>
      registered [login_required_dec; route_dec] admin_requests
  | ep_update_status pickup_id =>
      registered [login_required_dec; route_dec] (update_status request pickup_id)
  | ep_register => registered [route_dec] (register request)
  | ep_login => registered [route_dec] (login request)
  | ep_logout => registered [route_dec; login_required_dec] logout
  | ep_my_pickups => registered [route_dec; login_required_dec] my_pickups
  end.

(** Serving one request: dispatch, run the view, and turn an exception
    into the error page of the framework (the status of an HTTP
    exception, 500 for any other). *)
Definition handle (request : Request) (w : World) : Response * World :=
  match url_map (method request) (path request) with
  | None => (ErrorPage 405, w)
  | Some e =>
      match view_functions e request w with
      | (inr response, w') => (response, w')
      | (inl (HTTPException code), w') => (ErrorPage code, w')
      | (inl (AttributeError _), w') => (ErrorPage 500, w')
      | (inl OverflowError, w') => (ErrorPage 500, w')
      end
  end.

(** The row [register] adds. *)
Definition new_user (request : Request) (w : World) : User.t :=
  {| User.id := next_rowid (User.id <$> users (db w));
     User.email := normalized_email request;
     User.password_hash :=
       generate_password_hash (salt request) (submitted_password request);
     User.is_admin := Py.bool_of (form_get (form request) "is_admin") |}.

(** The world after a registration that went through. *)
Definition registered_world (request : Request) (w : World) : World :=
  {| db := {| users := users (db w) ++ [new_user request w];
              pickups := pickups (db w) |};
     session := Some (User.id (new_user request w)) |}.

(** Requests of several clients, served one after the other: each comes
    with the session of its client; the database is threaded through. *)
Fixpoint serve_all (trace : list (option Z * Request)) (d : DB) : DB :=
  match trace with
  | [] => d
  | (s, r) :: trace' =>
      serve_all trace' (db (handle r {| db := d; session := s |}).2)
  end.

End App.

(** ** Notions the theorems are stated with *)

(** The session of [w] names a user the loader finds. *)
Definition authenticated (w : World) (u : User.t) : Prop :=
  current_user w = (inr (Some u), w).

(** [current_user] is the anonymous user. *)
Definition anonymous (w : World) : Prop :=
  current_user w = (inr None, w).

(** The row [schedule_post] builds for the user of key [uid]. *)
Definition new_pickup (request : Request) (uid : Z) (w : World) : Pickup.t :=
  {| Pickup.id := next_rowid (Pickup.id <$> pickups (db w));
     Pickup.user_id := uid;
     Pickup.name := field request "name";
     Pickup.email := field request "email";
     Pickup.address := field request "address";
     Pickup.item := field request "item";
     Pickup.date := field request "date";
     Pickup.status := "Scheduled" |}.

(** The rows of [u], newest first. *)
Definition own_pickups (u : User.t) (d : DB) : list Pickup.t :=
  merge_sort id_desc (filter (λ p, Pickup.user_id p = User.id u) (pickups d)).

(** Two rows that agree on every column but [status]. *)
Definition same_but_status (p q : Pickup.t) : Prop :=
  Pickup.id q = Pickup.id p ∧ Pickup.user_id q = Pickup.user_id p
  ∧ Pickup.name q = Pickup.name p ∧ Pickup.email q = Pickup.email p
  ∧ Pickup.address q = Pickup.address p ∧ Pickup.item q = Pickup.item p
  ∧ Pickup.date q = Pickup.date p.

(** The table after [UPDATE pickups SET status = s WHERE id = pid]. *)
Definition with_status (pid : Z) (s : string) (rows : list Pickup.t) : list Pickup.t :=
  (λ q, if Pickup.id q =? pid then Pickup.set_status q s else q) <$> rows.

(** The request [r] sent with the method [m]. *)
Definition with_method (m : Method) (r : Request) : Request :=
  {| method := m; path := path r; form := form r; salt := salt r |}.

(** What serving [r] in the world [w] does to the world, by route: the
    world is left as it is, or one of the five writes of the views
    happens, each under the conditions its view checks. *)
Inductive effect
    (generate_password_hash : string → string → string)
    (check_password_hash : string → string → bool)
    (r : Request) (w : World) : World → Prop :=
  | effect_none :
      effect generate_password_hash check_password_hash r w w
  | effect_register :
      method r = POST → path r = path_register →
      normalized_email r ≠ "" → submitted_password r ≠ "" →
      user_by_email (db w) (normalized_email r) = None →
      effect generate_password_hash check_password_hash r w
        (registered_world generate_password_hash r w)
  | effect_login (u : User.t) :
      method r = POST → path r = path_login →
      user_by_email (db w) (normalized_email r) = Some u →
      check_password check_password_hash u (submitted_password r) = true →
      effect generate_password_hash check_password_hash r w
        {| db := db w; session := Some (User.id u) |}
  | effect_logout (u : User.t) :
      method r ≠ POST → path r = path_logout →
      authenticated w u →
      effect generate_password_hash check_password_hash r w
        {| db := db w; session := None |}
  | effect_schedule (u : User.t) :
      method r = POST → path r = path_schedule →
      authenticated w u →
      effect generate_password_hash check_password_hash r w
        {| db := {| users := users (db w);
                    pickups := pickups (db w) ++ [new_pickup r (User.id u) w] |};
           session := session w |}
  | effect_status (pid : Z) (u : User.t) (p : Pickup.t) :
      method r = POST → path r = path_status pid →
      authenticated w u → User.is_admin u = true →
      pid ≤ max_rowid →
      p ∈ pickups (db w) → Pickup.id p = pid →
      field r "status" ≠ "" →
      effect generate_password_hash check_password_hash r w
        {| db := {| users := users (db w);
                    pickups := with_status pid (field r "status") (pickups (db w)) |};
           session := session w |}.

(** The four effects a request has on the database. *)
Inductive db_step (d : DB) : DB → Prop :=
  | step_same : db_step d d
  | step_user (u : User.t) :
      User.id u = next_rowid (User.id <$> users d) →
      user_by_email d (User.email u) = None →
      db_step d {| users := users d ++ [u]; pickups := pickups d |}
  | step_pickup (p : Pickup.t) :
      Pickup.id p = next_rowid (Pickup.id <$> pickups d) →
      Pickup.user_id p ∈ User.id <$> users d →
      db_step d {| users := users d; pickups := pickups d ++ [p] |}
  | step_status (pid : Z) (s : string) :
      db_step d {| users := users d; pickups := with_status pid s (pickups d) |}.

(** The constraints the schema declares: both primary keys and the
    email of a user are unique, and the owner of a pickup is the key of a
    user. *)
Record wf_db (d : DB) : Prop := {
  wf_user_ids : NoDup (User.id <$> users d);
  wf_user_emails : NoDup (User.email <$> users d);
  wf_pickup_ids : NoDup (Pickup.id <$> pickups d);
  wf_owner : ∀ p, p ∈ pickups d → Pickup.user_id p ∈ User.id <$> users d
}.

(** Every row of key [n] belongs to the user of key [owner], and there is
    such a row. *)
Definition owned_by (d : DB) (n owner : Z) : Prop :=
  n ∈ Pickup.id <$> pickups d
  ∧ ∀ p, p ∈ pickups d → Pickup.id p = n → Pickup.user_id p = owner.


(** ** Sample data *)

(** A stand-in for Werkzeug's hashing, to run the model: the hash is the
    salt, a dollar sign and the password. *)
Fixpoint after_dollar (h : string) : string :=
  match h with
  | String c h' => if Ascii.eqb c "$"%char then h' else after_dollar h'
  | EmptyString => EmptyString
  end.

Definition sample_generate (salt password : string) : string :=
  salt +:+ "$" +:+ password.

Definition sample_check (pwhash password : string) : bool :=
  String.eqb (after_dollar pwhash) password.

Definition sample_admin : User.t :=
  {| User.id := 1; User.email := "root@x.com";
     User.password_hash := "s$secret"; User.is_admin := true |}.

Definition sample_alice : User.t :=
  {| User.id := 2; User.email := "a@x.com";
     User.password_hash := "s$pw1"; User.is_admin := false |}.

Definition sample_bob : User.t :=
  {| User.id := 3; User.email := "b@x.com";
     User.password_hash := "s$pw2"; User.is_admin := false |}.

Definition sample_pickup : Pickup.t :=
  {| Pickup.id := 1; Pickup.user_id := 2; Pickup.name := "A";
     Pickup.email := "a@x.com"; Pickup.address := "1 St";
     Pickup.item := "Laptop"; Pickup.date := "2024-01-01";
     Pickup.status := "Scheduled" |}.

Definition sample_db : DB :=
  {| users := [sample_admin; sample_alice; sample_bob];
     pickups := [sample_pickup] |}.

Definition empty_db : DB := {| users := []; pickups := [] |}.

(** A client of [sample_db] with the given session. *)
Definition client (s : option Z) : World := {| db := sample_db; session := s |}.

Definition visitor : World := {| db := empty_db; session := None |}.

Definition post (p : Path) (f : Form) : Request :=
  {| method := POST; path := p; form := f; salt := "s" |}.

Definition get (p : Path) : Request :=
  {| method := GET; path := p; form := []; salt := "s" |}.

Definition sample_handle : Request → World → Response * World :=
  handle sample_generate sample_check.

(** The no-break space U+00A0, which [str.strip()] removes. *)
Definition nbsp : string := String "194"%char (String "160"%char EmptyString).

Definition schedule_form : Form :=
  [("name", nbsp +:+ "B "); ("email", "b@x.com"); ("address", "2 Rd");
   ("item", "Phone"); ("date", "2024-02-02")].

(** A table whose one user has an email with a letter outside ASCII. *)
Definition accented_user : User.t :=
  {| User.id := 1; User.email := "é@x.com";
     User.password_hash := "s$pw5"; User.is_admin := false |}.

Definition accented_db : DB := {| users := [accented_user]; pickups := [] |}.

Definition first_without_password : Request :=
  post path_register [("email", "c@x.com"); ("password", "")].

Definition second_with_password : Request :=
  post path_register [("email", " C@X.com "); ("password", "pw3")].

(** Three requests of three clients: a user schedules a pickup, the
    administrator updates the first pickup, a visitor registers. *)
Definition sample_trace : list (option Z * Request) :=
  [(Some 3, post path_schedule schedule_form);
   (Some 1, post (path_status 1) [("status", " Picked ")]);
   (None, post path_register [("email", " D@x.com"); ("password", "pw4")])].

Definition sample_served : DB :=
  serve_all sample_generate sample_check sample_trace sample_db.

(** * Theorems *)

(** ** Running the monad *)

Ltac run :=
  unfold mbind, M_bind, mret, M_ret, get_world, put_world, raise in *; cbn in *.

Lemma current_user_cases (w : World) :
  anonymous w ∨ ∃ u, authenticated w u.
Proof.
  unfold anonymous, authenticated, current_user, load_user, User_query_get.
  run. destruct (session w) as [uid|]; [|by left].
  destruct (find _ _) as [u|]; [right; by exists u|by left].
Qed.

Lemma authenticated_session (w : World) (u : User.t) :
  authenticated w u → session w = Some (User.id u) ∧ u ∈ users (db w).
Proof.
  unfold authenticated, current_user, load_user, User_query_get. run.
  destruct (session w) as [uid|]; [|congruence].
  destruct (find _ _) as [u'|] eqn:Hfind; [|congruence].
  intros [= ->]. apply find_some in Hfind as [Hin Heq].
  apply Z.eqb_eq in Heq. subst uid. split; [done|]. by apply list_elem_of_In.
Qed.

Lemma current_user_attr_authenticated {A} (attr : string) (proj : User.t → A) w u :
  authenticated w u → current_user_attr attr proj w = (inr (proj u), w).
Proof. unfold authenticated, current_user_attr. run. by intros ->. Qed.

Lemma current_user_attr_anonymous {A} (attr : string) (proj : User.t → A) w :
  anonymous w → current_user_attr attr proj w = (inl (AttributeError attr), w).
Proof. unfold anonymous, current_user_attr. run. by intros ->. Qed.

(** ** Keys of new rows *)

Lemma next_rowid_above (ids : list Z) (i : Z) : i ∈ ids → i < next_rowid ids.
Proof.
  unfold next_rowid. induction ids as [|j ids IH]; [by intros ?%elem_of_nil|].
  intros [->|Hin]%elem_of_cons; cbn; [lia|]. specialize (IH Hin). lia.
Qed.

Lemma next_rowid_fresh (ids : list Z) : next_rowid ids ∉ ids.
Proof. intros Hin%next_rowid_above. lia. Qed.

(** ** Descending order *)

Global Instance id_desc_total : Total id_desc.
Proof. intros p q. unfold id_desc. lia. Qed.

Global Instance id_desc_trans : Transitive id_desc.
Proof. intros p q r. unfold id_desc. lia. Qed.

Section Served.

Variable generate_password_hash : string → string → string.
Variable check_password_hash : string → string → bool.

#[local] Abbreviation handle := (handle generate_password_hash check_password_hash).
#[local] Abbreviation view_functions :=
  (view_functions generate_password_hash check_password_hash).
#[local] Abbreviation check_password := (check_password check_password_hash).
#[local] Abbreviation new_user := (new_user generate_password_hash).
#[local] Abbreviation registered_world := (registered_world generate_password_hash).
#[local] Abbreviation serve_all := (serve_all generate_password_hash check_password_hash).

(** * The schedule route *)

(** [@login_required] is written above [@app.post("/schedule")]: the
    function in the view table is the bare [schedule_post]. *)
Lemma schedule_post_registered_bare (request : Request) :
  view_functions ep_schedule_post request = schedule_post request.
Proof. reflexivity. Qed.

(** The guarded function, which the source builds and never registers,
    would send an anonymous client to the login page. *)
Lemma schedule_post_guarded_anonymous (request : Request) (w : World) :
  anonymous w →
  login_required (schedule_post request) w = (inr (Redirect "/login"), w).
Proof. unfold anonymous, login_required. run. by intros ->. Qed.

(** What the anonymous client really gets: [current_user.id] raises in
    the bare view before anything is added, and the framework answers
    500. *)
Lemma schedule_post_anonymous_500 (request : Request) (w : World) :
  method request = POST → path request = path_schedule →
  anonymous w →
  handle request w = (ErrorPage 500, w).
Proof.
  intros Hm Hp Hanon. unfold handle. rewrite Hm, Hp. cbn.
  unfold schedule_post. run.
  by rewrite (current_user_attr_anonymous "id" User.id w Hanon).
Qed.

(** C1: a POST to /schedule without an authenticated session creates no
    Pickup row. *)
Theorem schedule_post_anonymous_no_pickup (request : Request) (w : World) :
  method request = POST → path request = path_schedule →
  anonymous w →
  pickups (db (handle request w).2) = pickups (db w).
Proof.
  intros Hm Hp Hanon. by rewrite schedule_post_anonymous_500.
Qed.

Lemma schedule_post_authenticated (request : Request) (w : World) (u : User.t) :
  method request = POST → path request = path_schedule →
  authenticated w u →
  handle request w =
    (render_template_string confirm_html
       [("rid", VInt (Pickup.id (new_pickup request (User.id u) w)));
        ("name", VStr (field request "name"))],
     {| db := {| users := users (db w);
                 pickups := pickups (db w) ++ [new_pickup request (User.id u) w] |};
        session := session w |}).
Proof.
  intros Hm Hp Hauth. unfold handle. rewrite Hm, Hp. cbn.
  unfold schedule_post. run.
  rewrite (current_user_attr_authenticated "id" User.id w u Hauth).
  unfold db_session_add_commit_pickup. by run.
Qed.

(** C5: a POST to /schedule by an authenticated user appends exactly
    one Pickup row, with a fresh key, owned by the session's user,
    holding the trimmed form fields and the status "Scheduled"; the
    confirmation page shows the key of the new row. *)
Theorem schedule_post_creates_pickup
    (request : Request) (w w' : World) (u : User.t) (response : Response) :
  method request = POST → path request = path_schedule →
  authenticated w u →
  handle request w = (response, w') →
  ∃ p : Pickup.t,
    pickups (db w') = pickups (db w) ++ [p]
    ∧ users (db w') = users (db w)
    ∧ (Pickup.id p ∉ Pickup.id <$> pickups (db w))
    ∧ Pickup.user_id p = User.id u
    ∧ Pickup.name p = Py.strip (Py.or_empty (form_get (form request) "name"))
    ∧ Pickup.email p = Py.strip (Py.or_empty (form_get (form request) "email"))
    ∧ Pickup.address p = Py.strip (Py.or_empty (form_get (form request) "address"))
    ∧ Pickup.item p = Py.strip (Py.or_empty (form_get (form request) "item"))
    ∧ Pickup.date p = Py.strip (Py.or_empty (form_get (form request) "date"))
    ∧ Pickup.status p = "Scheduled"
    ∧ (∃ ctx, response = Rendered confirm_html ctx)
    ∧ occurs_in (Py.str_of_int (Pickup.id p)) (body_text response).
Proof.
  intros Hm Hp Hauth. rewrite (schedule_post_authenticated request w u Hm Hp Hauth).
  intros [= <- <-]. exists (new_pickup request (User.id u) w). cbn.
  repeat split; try reflexivity.
  - apply next_rowid_fresh.
  - by eexists.
  - unfold confirm_heading. cbn. by do 2 eexists.
Qed.

(** * The administrator's routes *)

Lemma same_but_status_refl (p : Pickup.t) : same_but_status p p.
Proof. by repeat split. Qed.

Lemma same_but_status_set (p : Pickup.t) (s : string) :
  same_but_status p (Pickup.set_status p s).
Proof. by repeat split. Qed.

Lemma with_status_frame (pid : Z) (s : string) (rows : list Pickup.t) :
  Forall2 (λ p q, same_but_status p q ∧ (Pickup.id p ≠ pid → q = p))
          rows (with_status pid s rows).
Proof.
  unfold with_status. apply Forall2_fmap_r, Forall_Forall2_diag, Forall_forall.
  intros p _. cbn. destruct (Z.eqb_spec (Pickup.id p) pid) as [Heq|Hne].
  - split; [apply same_but_status_set|done].
  - split; [apply same_but_status_refl|done].
Qed.

Lemma with_status_target (pid : Z) (s : string) (rows : list Pickup.t) (q : Pickup.t) :
  q ∈ with_status pid s rows → Pickup.id q = pid → Pickup.status q = s.
Proof.
  unfold with_status. intros (p & -> & Hin)%list_elem_of_fmap.
  destruct (Z.eqb_spec (Pickup.id p) pid); cbn; [done|congruence].
Qed.

Lemma with_status_elem (pid : Z) (s : string) (rows : list Pickup.t) (p : Pickup.t) :
  p ∈ rows → Pickup.id p = pid → Pickup.set_status p s ∈ with_status pid s rows.
Proof.
  intros Hin Hid. unfold with_status. apply list_elem_of_fmap. exists p.
  split; [|done]. by rewrite <- Hid, Z.eqb_refl.
Qed.


Lemma find_pickup_Some (pid : Z) (rows : list Pickup.t) (p : Pickup.t) :
  p ∈ rows → Pickup.id p = pid →
  ∃ p0, find (λ p, Pickup.id p =? pid) rows = Some p0 ∧ Pickup.id p0 = pid.
Proof.
  intros Hin Hid. destruct (find _ rows) as [p0|] eqn:Hfind.
  - exists p0. split; [done|]. by apply find_some in Hfind as [_ ?%Z.eqb_eq].
  - apply list_elem_of_In in Hin.
    pose proof (find_none _ _ Hfind p Hin) as Hno. cbn in Hno. lia.
Qed.

Lemma within_max_rowid (pid : Z) : pid ≤ max_rowid → (max_rowid <? pid) = false.
Proof. intros H. by apply Z.ltb_ge. Qed.


(** What [update_status] does for an administrator. *)
Lemma update_status_admin (request : Request) (pid : Z) (w : World) (u : User.t) :
  authenticated w u → User.is_admin u = true →
  update_status request pid w =
    if max_rowid <? pid then (inl OverflowError, w)
    else
      match find (λ p, Pickup.id p =? pid) (pickups (db w)) with
      | None => (inl (HTTPException 404), w)
      | Some _ =>
          (inr (Redirect "/requests"),
           if Py.truthy (field request "status")
           then {| db := {| users := users (db w);
                            pickups := with_status pid (field request "status")
                                         (pickups (db w)) |};
                   session := session w |}
           else w)
      end.
Proof.
  intros Hauth Hadm. unfold update_status. run.
  rewrite (current_user_attr_authenticated "is_admin" User.is_admin w u Hauth), Hadm.
  cbn. unfold Pickup_query_get_or_404. run.
  destruct (max_rowid <? pid); [done|].
  destruct (find _ _) as [p0|] eqn:Hfind; [|done].
  apply find_some in Hfind as [_ Hid%Z.eqb_eq].
  destruct (Py.truthy _); [|done].
  unfold set_status_commit, with_status. run. by rewrite Hid.
Qed.

(** The admin views are registered bare as well: the guard is written
    above the route line of both. *)
Lemma admin_views_registered_bare (request : Request) (pid : Z) :
  view_functions ep_admin_requests request = admin_requests
  ∧ view_functions (ep_update_status pid) request = update_status request pid.
Proof. by split. Qed.

(** C6: GET /requests by a logged-in user who is no administrator
    answers a redirect to the home page and changes neither table; for
    an administrator the page lists all pickups in descending order of
    their keys. *)
Theorem admin_requests_listing (request : Request) (w : World) (u : User.t) :
  method request = GET → path request = path_requests →
  authenticated w u →
  (User.is_admin u = false →
     handle request w = (redirect (url_for "index"), w))
  ∧ (User.is_admin u = true →
     ∃ listing,
       handle request w =
         (render_template_string admin_html [("requests", VRows listing)], w)
       ∧ listing ≡ₚ pickups (db w)
       ∧ StronglySorted id_desc listing).
Proof.
  intros Hm Hp Hauth. unfold handle. rewrite Hm, Hp. cbn.
  unfold admin_requests. run.
  rewrite (current_user_attr_authenticated "is_admin" User.is_admin w u Hauth).
  split; intros ->; cbn; [done|].
  unfold Pickup_query_order_by_id_desc_all. run.
  eexists. split; [reflexivity|]. split.
  - apply merge_sort_Permutation.
  - apply (StronglySorted_merge_sort id_desc).
Qed.


(** C9: a status update by an administrator on an existing pickup keeps
    the users table and the number and order of the pickup rows; every
    row keeps all its columns but [status], and a row with another key is
    kept whole. *)
Theorem update_status_frame
    (request : Request) (pickup_id : Z) (w : World) (u : User.t) (p : Pickup.t) :
  method request = POST → path request = path_status pickup_id →
  authenticated w u → User.is_admin u = true →
  p ∈ pickups (db w) → Pickup.id p = pickup_id →
  users (db (handle request w).2) = users (db w)
  ∧ Forall2 (λ q q', same_but_status q q' ∧ (Pickup.id q ≠ pickup_id → q' = q))
            (pickups (db w)) (pickups (db (handle request w).2)).
Proof.
  intros Hm Hp Hauth Hadm Hin Hid. unfold handle. rewrite Hm, Hp. cbn.
  rewrite (update_status_admin request pickup_id w u Hauth Hadm).
  assert (Hsame : Forall2
            (λ q q', same_but_status q q' ∧ (Pickup.id q ≠ pickup_id → q' = q))
            (pickups (db w)) (pickups (db w))).
  { apply Forall_Forall2_diag, Forall_forall.
    intros q _. split; [apply same_but_status_refl|done]. }
  destruct (max_rowid <? pickup_id); [done|].
  destruct (find_pickup_Some pickup_id _ p Hin Hid) as (p0 & -> & _).
  destruct (Py.truthy _); cbn; [|done].
  split; [done|]. apply with_status_frame.
Qed.

(** C4, as the code has it: the status stored is the submitted string
    with the white space at both ends removed, whatever it is; when
    nothing is left after trimming, nothing changes.  The pickup is one
    the storage can hold: its key is at most 2^63 - 1. *)
Theorem update_status_persists_trimmed
    (request : Request) (pickup_id : Z) (w : World) (u : User.t) (p : Pickup.t) :
  method request = POST → path request = path_status pickup_id →
  authenticated w u → User.is_admin u = true →
  p ∈ pickups (db w) → Pickup.id p = pickup_id → pickup_id ≤ max_rowid →
  let new_status := Py.strip (Py.or_empty (form_get (form request) "status")) in
  let w' := (handle request w).2 in
  (new_status ≠ "" →
     Pickup.set_status p new_status ∈ pickups (db w')
     ∧ ∀ q, q ∈ pickups (db w') → Pickup.id q = pickup_id →
            Pickup.status q = new_status)
  ∧ (new_status = "" → w' = w).
Proof.
  intros Hm Hp Hauth Hadm Hin Hid Hfits%within_max_rowid new_status w'.
  subst w'. unfold handle. rewrite Hm, Hp. cbn.
  rewrite (update_status_admin request pickup_id w u Hauth Hadm), Hfits.
  destruct (find_pickup_Some pickup_id _ p Hin Hid) as (p0 & -> & _).
  fold new_status. unfold field. fold new_status.
  destruct new_status as [|c s] eqn:Hs; cbn.
  - split; [done|done].
  - split; [|done]. intros _. split.
    + by apply with_status_elem.
    + intros q. apply with_status_target.
Qed.

(** * My pickups *)

(** Here the route line is the top one: the registered view is the
    guarded one, and an anonymous client is sent to the login page. *)
Lemma my_pickups_anonymous (request : Request) (w : World) :
  method request = GET → path request = path_my_pickups →
  anonymous w →
  handle request w = (Redirect "/login", w).
Proof.
  intros Hm Hp Hanon. unfold handle. rewrite Hm, Hp. cbn.
  unfold login_required. run. by rewrite Hanon.
Qed.

Lemma my_pickups_authenticated (request : Request) (w : World) (u : User.t) :
  method request = GET → path request = path_my_pickups →
  authenticated w u →
  handle request w =
    (render_template_string my_pickups_html
       [("requests", VRows (own_pickups u (db w)))], w).
Proof.
  intros Hm Hp Hauth. unfold handle. rewrite Hm, Hp. cbn.
  unfold login_required. run. rewrite Hauth.
  unfold my_pickups. run.
  rewrite (current_user_attr_authenticated "id" User.id w u Hauth).
  unfold Pickup_query_filter_by_user_id_order_by_id_desc_all. by run.
Qed.

Lemma elem_of_own_pickups (u : User.t) (d : DB) (p : Pickup.t) :
  p ∈ own_pickups u d ↔ p ∈ pickups d ∧ Pickup.user_id p = User.id u.
Proof.
  unfold own_pickups. rewrite merge_sort_Permutation, list_elem_of_filter. tauto.
Qed.

(** C7: the listing of /my-pickups for a logged-in user holds exactly
    the pickup rows whose [user_id] is the key of that user, in
    descending order of their keys; a row owned by another user is not
    in it. *)
Theorem my_pickups_own (request : Request) (w : World) (u : User.t) :
  method request = GET → path request = path_my_pickups →
  authenticated w u →
  ∃ mine,
    handle request w =
      (render_template_string my_pickups_html [("requests", VRows mine)], w)
    ∧ mine ≡ₚ filter (λ p, Pickup.user_id p = User.id u) (pickups (db w))
    ∧ StronglySorted id_desc mine
    ∧ (∀ p, p ∈ mine ↔ p ∈ pickups (db w) ∧ Pickup.user_id p = User.id u)
    ∧ (∀ (a : User.t) p,
         User.id a ≠ User.id u → Pickup.user_id p = User.id a → p ∉ mine).
Proof.
  intros Hm Hp Hauth. exists (own_pickups u (db w)).
  split; [by apply my_pickups_authenticated|].
  split; [apply merge_sort_Permutation|].
  split; [apply (StronglySorted_merge_sort id_desc)|].
  split; [apply elem_of_own_pickups|].
  intros a p Hne Hown [_ Hu]%elem_of_own_pickups. congruence.
Qed.

(** The scenario with two users: [a] schedules a pickup, then [b], a
    user with another key, opens /my-pickups from a session of their
    own; the new row is not listed. *)
Lemma scheduled_by_other_not_listed
    (ra rb : Request) (w : World) (a b : User.t) (sb : option Z) :
  method ra = POST → path ra = path_schedule → authenticated w a →
  method rb = GET → path rb = path_my_pickups →
  authenticated {| db := db (handle ra w).2; session := sb |} b →
  User.id a ≠ User.id b →
  ∃ p mine,
    pickups (db (handle ra w).2) = pickups (db w) ++ [p]
    ∧ (handle rb {| db := db (handle ra w).2; session := sb |}).1
        = render_template_string my_pickups_html [("requests", VRows mine)]
    ∧ p ∉ mine.
Proof.
  intros Hma Hpa Ha Hmb Hpb Hb Hne.
  rewrite (my_pickups_authenticated rb _ b Hmb Hpb Hb).
  rewrite (schedule_post_authenticated ra w a Hma Hpa Ha).
  do 2 eexists. split; [reflexivity|]. split; [reflexivity|].
  intros [_ Hown]%elem_of_own_pickups. cbn in Hown. congruence.
Qed.

(** * Registration and login *)

Lemma truthy_false (s : string) : Py.truthy s = false ↔ s = "".
Proof. destruct s; cbn; split; congruence. Qed.

Lemma truthy_true (s : string) : Py.truthy s = true ↔ s ≠ "".
Proof. destruct s; cbn; split; congruence. Qed.

Lemma user_by_email_app (d : DB) (u : User.t) (ps : list Pickup.t) (email : string) :
  User.email u = email →
  is_Some (user_by_email {| users := users d ++ [u]; pickups := ps |} email).
Proof.
  intros Hu. unfold user_by_email. cbn.
  destruct (find _ _) as [u'|] eqn:Hfind; [by eexists|].
  assert (Hin : In u (users d ++ [u])) by (apply in_or_app; right; by left).
  pose proof (find_none _ _ Hfind u Hin) as Hno. cbn in Hno.
  rewrite Hu, String.eqb_refl in Hno. discriminate.
Qed.

Lemma register_post (request : Request) (w : World) :
  method request = POST → path request = path_register →
  handle request w =
    if negb (Py.truthy (normalized_email request))
       || negb (Py.truthy (submitted_password request))
    then (register_form, w)
    else match user_by_email (db w) (normalized_email request) with
         | Some _ => (register_form, w)
         | None => (redirect (url_for "index"), registered_world request w)
         end.
Proof.
  intros Hm Hp. unfold handle. rewrite Hm, Hp. cbn.
  unfold register. rewrite Hm.
  fold (normalized_email request). fold (submitted_password request).
  destruct (negb _ || negb _); [done|].
  unfold User_query_filter_by_email_first. run.
  destruct (user_by_email _ _); [done|].
  unfold db_session_add_commit_user, login_user. by run.
Qed.

Lemma register_rejected_when_taken (request : Request) (w : World) :
  method request = POST → path request = path_register →
  is_Some (user_by_email (db w) (normalized_email request)) →
  handle request w = (register_form, w).
Proof.
  intros Hm Hp [u Hu]. rewrite (register_post request w Hm Hp), Hu.
  by destruct (negb _ || negb _).
Qed.

Lemma register_creates_at_most_one (request : Request) (w : World) :
  method request = POST → path request = path_register →
  (handle request w).2 = w ∨ (handle request w).2 = registered_world request w.
Proof.
  intros Hm Hp. rewrite (register_post request w Hm Hp).
  destruct (negb _ || negb _); [by left|].
  destruct (user_by_email _ _); [by left|by right].
Qed.

(** C2, as the code has it: of two registration submissions with the
    same normalized email at most one creates a User row; and when the
    first one carried a password, the second one shows the form again,
    creates no user and leaves the tables and its session as they were.
    The second submission may come from any session [s2]. *)
Theorem register_twice_one_user (r1 r2 : Request) (w : World) (s2 : option Z) :
  method r1 = POST → path r1 = path_register →
  method r2 = POST → path r2 = path_register →
  normalized_email r1 = normalized_email r2 →
  let w1 := {| db := db (handle r1 w).2; session := s2 |} in
  (users (db (handle r2 w1).2) = users (db w)
   ∨ ∃ u, users (db (handle r2 w1).2) = users (db w) ++ [u])
  ∧ (submitted_password r1 ≠ "" → handle r2 w1 = (register_form, w1)).
Proof.
  intros Hm1 Hp1 Hm2 Hp2 Heq w1. subst w1.
  rewrite (register_post r1 w Hm1 Hp1).
  destruct (Py.truthy (normalized_email r1)) eqn:He; cbn [negb orb].
  2:{ (* empty email: both are turned down *)
    rewrite (register_post r2 _ Hm2 Hp2), <- Heq, He. cbn. by split; [left|]. }
  destruct (Py.truthy (submitted_password r1)) eqn:Hpw; cbn [negb orb].
  2:{ (* the first has no password: only the second can create a row *)
    apply truthy_false in Hpw. split; [|done]. cbn.
    destruct (register_creates_at_most_one r2
                {| db := db w; session := s2 |} Hm2 Hp2) as [-> | ->].
    - by left.
    - right. by eexists. }
  destruct (user_by_email (db w) (normalized_email r1)) as [u0|] eqn:Hfind; cbn.
  - (* the email was taken before *)
    rewrite (register_rejected_when_taken r2 _ Hm2 Hp2).
    + by split; [left|].
    + cbn. rewrite <- Heq, Hfind. by eexists.
  - (* the first creates the row, the second finds it *)
    rewrite (register_rejected_when_taken r2 _ Hm2 Hp2).
    + split; [right; by eexists|done].
    + cbn. rewrite <- Heq.
      by apply (user_by_email_app (db w) (new_user r1 w) (pickups (db w))).
Qed.

(** C10, as the code has it: the admin flag of the user a registration
    creates is the truth value of the first [is_admin] value of the form
    (set when the field is there with a non-empty value); the session
    and the rights of whoever submits are not looked at. *)
Theorem register_admin_flag (request : Request) (w : World) :
  method request = POST → path request = path_register →
  normalized_email request ≠ "" → submitted_password request ≠ "" →
  user_by_email (db w) (normalized_email request) = None →
  ∃ u,
    handle request w =
      (redirect (url_for "index"),
       {| db := {| users := users (db w) ++ [u]; pickups := pickups (db w) |};
          session := Some (User.id u) |})
    ∧ User.email u = normalized_email request
    ∧ User.is_admin u = Py.bool_of (form_get (form request) "is_admin").
Proof.
  intros Hm Hp He%truthy_true Hpw%truthy_true Hfree.
  exists (new_user request w).
  by rewrite (register_post request w Hm Hp), He, Hpw, Hfree.
Qed.

Lemma login_post (request : Request) (w : World) :
  method request = POST → path request = path_login →
  handle request w =
    match user_by_email (db w) (normalized_email request) with
    | Some u =>
        if check_password u (submitted_password request)
        then (redirect (url_for "index"),
              {| db := db w; session := Some (User.id u) |})
        else (login_form, w)
    | None => (login_form, w)
    end.
Proof.
  intros Hm Hp. unfold handle. rewrite Hm, Hp. cbn.
  unfold login. rewrite Hm.
  fold (normalized_email request). fold (submitted_password request).
  unfold User_query_filter_by_email_first. run.
  destruct (user_by_email _ _) as [u|]; [|done].
  fold (check_password u (submitted_password request)).
  destruct (check_password _ _); [|done].
  unfold login_user. by run.
Qed.

(** C3: a login submission whose password does not verify against the
    hash of the user found by the normalized email, or that finds no
    user, shows the login form again and leaves the session and the
    tables as they were; the session is set to a user only when that
    user's password verifies. *)
Theorem login_only_when_verified (request : Request) (w : World) :
  method request = POST → path request = path_login →
  let found := user_by_email (db w) (normalized_email request) in
  ((∀ u, found = Some u → check_password u (submitted_password request) = false) →
     handle request w = (login_form, w))
  ∧ (∀ u, found = Some u → check_password u (submitted_password request) = true →
     handle request w =
       (redirect (url_for "index"), {| db := db w; session := Some (User.id u) |}))
  ∧ (session (handle request w).2 ≠ session w →
     ∃ u, found = Some u ∧ check_password u (submitted_password request) = true
          ∧ session (handle request w).2 = Some (User.id u)).
Proof.
  intros Hm Hp found. rewrite (login_post request w Hm Hp). fold found.
  destruct found as [u|].
  - destruct (check_password u _) eqn:Hck.
    + split; [intros Hno; specialize (Hno u eq_refl); congruence|].
      split; [by intros ? [= <-] _|]. intros _. by exists u.
    + split; [done|]. split; [intros ? [= <-]; congruence|]. by intros [].
  - split; [done|]. split; [done|]. by intros [].
Qed.

(** * What a request can do to the tables *)

Lemma user_by_email_None (d : DB) (email : string) :
  user_by_email d email = None → email ∉ User.email <$> users d.
Proof.
  unfold user_by_email. intros Hfind (u & -> & Hin)%list_elem_of_fmap.
  apply list_elem_of_In in Hin. pose proof (find_none _ _ Hfind u Hin) as Hno.
  cbn in Hno. by rewrite String.eqb_refl in Hno.
Qed.

Lemma with_status_ids (pid : Z) (s : string) (rows : list Pickup.t) :
  Pickup.id <$> with_status pid s rows = Pickup.id <$> rows.
Proof.
  unfold with_status. rewrite <- list_fmap_compose. apply list_fmap_ext.
  intros i p _. cbn. by destruct (Pickup.id p =? pid).
Qed.

Lemma NoDup_snoc {A} (l : list A) (x : A) : NoDup l → x ∉ l → NoDup (l ++ [x]).
Proof.
  intros Hl Hx. apply NoDup_app. split; [done|]. split.
  - intros y Hy ->%list_elem_of_singleton. by apply Hx.
  - apply NoDup_singleton.
Qed.

Lemma with_status_owner (pid : Z) (s : string) (rows : list Pickup.t) (q : Pickup.t) :
  q ∈ with_status pid s rows →
  ∃ p, p ∈ rows ∧ Pickup.id q = Pickup.id p ∧ Pickup.user_id q = Pickup.user_id p.
Proof.
  unfold with_status. intros (p & -> & Hin)%list_elem_of_fmap. exists p.
  split; [done|]. by destruct (Pickup.id p =? pid).
Qed.

Lemma db_step_wf (d d' : DB) : db_step d d' → wf_db d → wf_db d'.
Proof.
  intros Hstep [Hu He Hp Ho]. destruct Hstep as [|u Hid Hfree|p Hid Hown|pid s].
  - by split.
  - split; cbn.
    + rewrite fmap_app. cbn. apply NoDup_snoc; [done|].
      rewrite Hid. apply next_rowid_fresh.
    + rewrite fmap_app. cbn. apply NoDup_snoc; [done|].
      by apply user_by_email_None.
    + done.
    + intros p Hin. rewrite fmap_app. apply elem_of_app. left. by apply Ho.
  - split; cbn; [done|done| |].
    + rewrite fmap_app. cbn. apply NoDup_snoc; [done|].
      rewrite Hid. apply next_rowid_fresh.
    + intros q [Hin| ->%list_elem_of_singleton]%elem_of_app; [by apply Ho|done].
  - split; cbn; [done|done| |].
    + by rewrite with_status_ids.
    + intros q (p & Hin & _ & ->)%with_status_owner. by apply Ho.
Qed.

(** Once a pickup exists, its key stays in the table with the same
    owner, whatever is done to the database. *)
Lemma db_step_owned_by (d d' : DB) (n owner : Z) :
  db_step d d' → owned_by d n owner → owned_by d' n owner.
Proof.
  intros Hstep [Hex Hown]. destruct Hstep as [|u Hid Hfree|p Hid Hp|pid s].
  - by split.
  - by split.
  - split; cbn.
    + rewrite fmap_app. apply elem_of_app. by left.
    + intros q [Hin| ->%list_elem_of_singleton]%elem_of_app Hq; [by apply Hown|].
      apply next_rowid_above in Hex. lia.
  - split; cbn.
    + by rewrite with_status_ids.
    + intros q (p & Hin & -> & ->)%with_status_owner. by apply Hown.
Qed.

(** A HEAD request is served as the same request sent with GET. *)
Lemma handle_head (request : Request) (w : World) :
  method request = HEAD → handle request w = handle (with_method GET request) w.
Proof.
  intros Hm. unfold handle. cbn. rewrite Hm.
  destruct (path request); cbn; try done.
  - unfold register. cbn. by rewrite Hm.
  - unfold login. cbn. by rewrite Hm.
Qed.

Lemma handle_db_step_not_head (request : Request) (w : World) :
  method request ≠ HEAD → db_step (db w) (db (handle request w).2).
Proof.
  intros Hnh.
  destruct (method request) eqn:Hm, (path request) eqn:Hp;
    try (unfold handle; rewrite Hm, Hp; cbn; by constructor); try done.
  - (* GET /requests *)
    unfold handle. rewrite Hm, Hp. cbn. unfold admin_requests. run.
    destruct (current_user_cases w) as [Hanon|[u Hauth]].
    + rewrite (current_user_attr_anonymous "is_admin" User.is_admin w Hanon).
      constructor.
    + rewrite (current_user_attr_authenticated "is_admin" User.is_admin w u Hauth).
      destruct (User.is_admin u); cbn; constructor.
  - (* GET /register *)
    unfold handle. rewrite Hm, Hp. cbn. unfold register. rewrite Hm. constructor.
  - (* GET /login *)
    unfold handle. rewrite Hm, Hp. cbn. unfold login. rewrite Hm. constructor.
  - (* GET /logout *)
    unfold handle. rewrite Hm, Hp. cbn. unfold login_required, logout, logout_user.
    run. destruct (current_user_cases w) as [->|[u ->]]; constructor.
  - (* GET /my-pickups *)
    destruct (current_user_cases w) as [Hanon|[u Hauth]].
    + rewrite (my_pickups_anonymous request w Hm Hp Hanon). constructor.
    + rewrite (my_pickups_authenticated request w u Hm Hp Hauth). constructor.
  - (* POST /schedule *)
    destruct (current_user_cases w) as [Hanon|[u Hauth]].
    + rewrite (schedule_post_anonymous_500 request w Hm Hp Hanon). constructor.
    + rewrite (schedule_post_authenticated request w u Hm Hp Hauth).
      apply step_pickup; [done|]. cbn.
      apply list_elem_of_fmap. exists u. split; [done|].
      by apply authenticated_session.
  - (* POST /requests/<id>/status *)
    unfold handle. rewrite Hm, Hp. cbn.
    destruct (current_user_cases w) as [Hanon|[u Hauth]].
    + unfold update_status. run.
      rewrite (current_user_attr_anonymous "is_admin" User.is_admin w Hanon).
      constructor.
    + destruct (User.is_admin u) eqn:Hadm.
      * rewrite (update_status_admin request pickup_id w u Hauth Hadm).
        destruct (max_rowid <? pickup_id); [constructor|].
        destruct (find _ _); [|constructor].
        destruct (Py.truthy _); cbn; constructor.
      * unfold update_status. run.
        rewrite (current_user_attr_authenticated "is_admin" User.is_admin w u Hauth).
        rewrite Hadm. constructor.
  - (* POST /register *)
    destruct (register_creates_at_most_one request w Hm Hp) as [-> | Hreg].
    + constructor.
    + pose proof (register_post request w Hm Hp) as Hrun.
      destruct (negb _ || negb _); [rewrite Hrun; constructor|].
      destruct (user_by_email _ _) eqn:Hfind; [rewrite Hrun; constructor|].
      rewrite Hreg. by apply step_user.
  - (* POST /login *)
    rewrite (login_post request w Hm Hp).
    destruct (user_by_email _ _) as [u|]; [|constructor].
    destruct (check_password _ _); constructor.
Qed.

Lemma handle_db_step (request : Request) (w : World) :
  db_step (db w) (db (handle request w).2).
Proof.
  destruct (method request) eqn:Hm.
  - apply handle_db_step_not_head. by rewrite Hm.
  - apply handle_db_step_not_head. by rewrite Hm.
  - rewrite (handle_head request w Hm). by apply handle_db_step_not_head.
Qed.

(** The schema's constraints hold after every request, whoever sends it. *)
Lemma handle_preserves_wf (request : Request) (w : World) :
  wf_db (db w) → wf_db (db (handle request w).2).
Proof. apply db_step_wf, handle_db_step. Qed.

Lemma serve_all_preserves_wf (trace : list (option Z * Request)) (d : DB) :
  wf_db d →
  wf_db (serve_all trace d).
Proof.
  revert d. induction trace as [|[s r] trace IH]; intros d Hwf; [done|].
  cbn. apply IH. by apply (handle_preserves_wf r {| db := d; session := s |}).
Qed.

Lemma serve_all_owned_by
    (trace : list (option Z * Request)) (d : DB) (n owner : Z) :
  owned_by d n owner →
  owned_by (serve_all trace d) n owner.
Proof.
  revert d. induction trace as [|[s r] trace IH]; intros d Hown; [done|].
  cbn. apply IH.
  by apply (db_step_owned_by _ _ n owner
              (handle_db_step r {| db := d; session := s |})).
Qed.

(** X20: a pickup of one user is never listed for another: after any
    further requests of any clients, the page of /my-pickups of a user
    [b] holds no row with the key of a pickup owned by somebody else. *)
Lemma other_users_pickup_never_listed
    (trace : list (option Z * Request)) (d : DB) (n owner : Z)
    (request : Request) (s : option Z) (b : User.t) :
  owned_by d n owner →
  let d' := serve_all trace d in
  method request = GET → path request = path_my_pickups →
  authenticated {| db := d'; session := s |} b →
  User.id b ≠ owner →
  ∃ mine,
    (handle request {| db := d'; session := s |}).1
      = render_template_string my_pickups_html [("requests", VRows mine)]
    ∧ n ∉ Pickup.id <$> mine.
Proof.
  intros Hown d' Hm Hp Hauth Hne.
  pose proof (serve_all_owned_by trace d n owner Hown) as Hown'. fold d' in Hown'.
  rewrite (my_pickups_authenticated request _ b Hm Hp Hauth).
  eexists. split; [reflexivity|].
  intros (p & Hid & [Hin Hp_owner]%elem_of_own_pickups)%list_elem_of_fmap.
  destruct Hown' as [_ Hall]. cbn in Hin.
  specialize (Hall p Hin (eq_sym Hid)). congruence.
Qed.

(** * Further properties of the views *)

Lemma authenticated_char (w : World) (u : User.t) :
  authenticated w u ↔
  ∃ uid, session w = Some uid
         ∧ find (λ u', User.id u' =? uid) (users (db w)) = Some u.
Proof.
  unfold authenticated, current_user, load_user, User_query_get. run.
  destruct (session w) as [uid|].
  - split.
    + intros [= Hfind]. by exists uid.
    + intros (uid' & [= <-] & ->). done.
  - split; [congruence|]. by intros (uid & [=] & _).
Qed.

Lemma anonymous_char (w : World) :
  anonymous w ↔
  match session w with
  | Some uid => find (λ u', User.id u' =? uid) (users (db w)) = None
  | None => True
  end.
Proof.
  unfold anonymous, current_user, load_user, User_query_get. run.
  destruct (session w) as [uid|]; [|done].
  split; [by intros [= ->]|by intros ->].
Qed.

Lemma admin_requests_authenticated (request : Request) (w : World) (u : User.t) :
  method request = GET → path request = path_requests →
  authenticated w u →
  handle request w =
    (if User.is_admin u
     then render_template_string admin_html
            [("requests", VRows (merge_sort id_desc (pickups (db w))))]
     else redirect (url_for "index"), w).
Proof.
  intros Hm Hp Hauth. unfold handle. rewrite Hm, Hp. cbn.
  unfold admin_requests. run.
  rewrite (current_user_attr_authenticated "is_admin" User.is_admin w u Hauth).
  destruct (User.is_admin u); cbn; [|done].
  unfold Pickup_query_order_by_id_desc_all. by run.
Qed.

Lemma admin_requests_anonymous (request : Request) (w : World) :
  method request = GET → path request = path_requests →
  anonymous w → handle request w = (ErrorPage 500, w).
Proof.
  intros Hm Hp Hanon. unfold handle. rewrite Hm, Hp. cbn.
  unfold admin_requests. run.
  by rewrite (current_user_attr_anonymous "is_admin" User.is_admin w Hanon).
Qed.

Lemma update_status_anonymous (request : Request) (pid : Z) (w : World) :
  method request = POST → path request = path_status pid →
  anonymous w → handle request w = (ErrorPage 500, w).
Proof.
  intros Hm Hp Hanon. unfold handle. rewrite Hm, Hp. cbn.
  unfold update_status. run.
  by rewrite (current_user_attr_anonymous "is_admin" User.is_admin w Hanon).
Qed.

Lemma update_status_not_admin (request : Request) (pid : Z) (w : World) (u : User.t) :
  method request = POST → path request = path_status pid →
  authenticated w u → User.is_admin u = false →
  handle request w = (redirect (url_for "index"), w).
Proof.
  intros Hm Hp Hauth Hadm. unfold handle. rewrite Hm, Hp. cbn.
  unfold update_status. run.
  by rewrite (current_user_attr_authenticated "is_admin" User.is_admin w u Hauth), Hadm.
Qed.

Lemma logout_run (request : Request) (w : World) :
  method request = GET → path request = path_logout →
  handle request w =
    match session w with
    | Some uid =>
        match find (λ u', User.id u' =? uid) (users (db w)) with
        | Some _ => (redirect (url_for "index"), {| db := db w; session := None |})
        | None => (redirect (url_for "login"), w)
        end
    | None => (redirect (url_for "login"), w)
    end.
Proof.
  intros Hm Hp. unfold handle. rewrite Hm, Hp. cbn.
  unfold login_required, logout, logout_user, current_user, load_user,
    User_query_get. run.
  destruct (session w) as [uid|]; [|done]. by destruct (find _ _).
Qed.

(** X1: GET /logout leaves the tables alone and leaves the client
    anonymous: a logged-in client loses its session and is sent home, a
    client that was not logged in is sent to the login page. *)
Theorem logout_ends_session (request : Request) (w : World) :
  method request = GET → path request = path_logout →
  db (handle request w).2 = db w
  ∧ anonymous (handle request w).2
  ∧ (∀ u, authenticated w u →
       handle request w = (Redirect "/", {| db := db w; session := None |}))
  ∧ (anonymous w → handle request w = (Redirect "/login", w)).
Proof.
  intros Hm Hp. rewrite (logout_run request w Hm Hp).
  destruct (session w) as [uid|] eqn:Hs.
  - destruct (find _ _) as [u0|] eqn:Hfind; cbn.
    + split; [done|]. split; [by apply anonymous_char|].
      split; [done|]. intros Hanon%anonymous_char. rewrite Hs in Hanon.
      by rewrite Hfind in Hanon.
    + split; [done|]. split; [apply anonymous_char; by rewrite Hs|].
      split; [|done]. intros u (uid' & Hs' & Hf)%authenticated_char.
      rewrite Hs in Hs'. injection Hs' as <-. by rewrite Hfind in Hf.
  - cbn. split; [done|]. split; [apply anonymous_char; by rewrite Hs|].
    split; [|done]. intros u (uid' & Hs' & _)%authenticated_char. congruence.
Qed.

(** X2: on /my-pickups the login guard is in force (the route line is
    written above it): a client that is not logged in gets the redirect
    to the login page and nothing is read or changed. *)
Theorem my_pickups_requires_login (request : Request) (w : World) :
  method request = GET → path request = path_my_pickups →
  anonymous w →
  handle request w = (Redirect "/login", w).
Proof.
  intros Hm Hp Hanon. unfold handle. rewrite Hm, Hp. cbn.
  unfold login_required. run. by rewrite Hanon.
Qed.

(** X3: on the two administrator routes the login guard is not in
    force (it is written above the route line): for a client that is not
    logged in the view runs, [current_user.is_admin] raises, and the
    answer is the 500 page; nothing is changed. *)
Theorem admin_routes_anonymous_500 (request : Request) (pid : Z) (w : World) :
  anonymous w →
  (method request = GET ∧ path request = path_requests)
  ∨ (method request = POST ∧ path request = path_status pid) →
  handle request w = (ErrorPage 500, w).
Proof.
  intros Hanon [[Hm Hp]|[Hm Hp]].
  - by apply admin_requests_anonymous.
  - by apply (update_status_anonymous request pid).
Qed.

(** X4: a status update sent by a logged-in user who is no
    administrator is answered by the redirect to the home page and
    changes nothing, whether the pickup exists or not and whatever the
    status submitted. *)
Theorem update_status_refused_for_non_admin
    (request : Request) (pid : Z) (w : World) (u : User.t) :
  method request = POST → path request = path_status pid →
  authenticated w u → User.is_admin u = false →
  handle request w = (Redirect "/", w).
Proof. apply update_status_not_admin. Qed.

(** X5: a registration whose email is empty after trimming, or whose
    password is empty, shows the form again: no user is created and the
    session is left as it was. *)
Theorem register_refuses_empty (request : Request) (w : World) :
  method request = POST → path request = path_register →
  normalized_email request = "" ∨ submitted_password request = "" →
  handle request w = (register_form, w).
Proof.
  intros Hm Hp Hempty. rewrite (register_post request w Hm Hp).
  destruct Hempty as [->| ->]; cbn; [done|]. by rewrite orb_true_r.
Qed.

(** ** Every request is one of six effects *)

Lemma find_pickup_elem (pid : Z) (rows : list Pickup.t) (p : Pickup.t) :
  find (λ p, Pickup.id p =? pid) rows = Some p → p ∈ rows ∧ Pickup.id p = pid.
Proof.
  intros [Hin Hid%Z.eqb_eq]%find_some. split; [by apply list_elem_of_In|done].
Qed.

Lemma handle_effect_not_head (request : Request) (w : World) :
  method request ≠ HEAD →
  effect generate_password_hash check_password_hash request w (handle request w).2.
Proof.
  intros Hnh.
  destruct (method request) eqn:Hm, (path request) eqn:Hp;
    try (unfold handle; rewrite Hm, Hp; cbn; by constructor); try done.
  - (* GET /requests *)
    destruct (current_user_cases w) as [Hanon|[u Hauth]].
    + rewrite (admin_requests_anonymous request w Hm Hp Hanon). constructor.
    + rewrite (admin_requests_authenticated request w u Hm Hp Hauth). constructor.
  - (* GET /register *)
    unfold handle. rewrite Hm, Hp. cbn. unfold register. rewrite Hm. constructor.
  - (* GET /login *)
    unfold handle. rewrite Hm, Hp. cbn. unfold login. rewrite Hm. constructor.
  - (* GET /logout *)
    rewrite (logout_run request w Hm Hp).
    destruct (session w) as [uid|] eqn:Hs; [|constructor].
    destruct (find _ _) as [u|] eqn:Hfind; [|constructor].
    apply (effect_logout _ _ _ _ u); [by rewrite Hm|done|].
    apply authenticated_char. by exists uid.
  - (* GET /my-pickups *)
    destruct (current_user_cases w) as [Hanon|[u Hauth]].
    + rewrite (my_pickups_anonymous request w Hm Hp Hanon). constructor.
    + rewrite (my_pickups_authenticated request w u Hm Hp Hauth). constructor.
  - (* POST /schedule *)
    destruct (current_user_cases w) as [Hanon|[u Hauth]].
    + rewrite (schedule_post_anonymous_500 request w Hm Hp Hanon). constructor.
    + rewrite (schedule_post_authenticated request w u Hm Hp Hauth).
      by apply (effect_schedule _ _ _ _ u).
  - (* POST /requests/<id>/status *)
    destruct (current_user_cases w) as [Hanon|[u Hauth]].
    + rewrite (update_status_anonymous request pickup_id w Hm Hp Hanon). constructor.
    + destruct (User.is_admin u) eqn:Hadm.
      * unfold handle. rewrite Hm, Hp. cbn.
        rewrite (update_status_admin request pickup_id w u Hauth Hadm).
        destruct (Z.ltb_spec max_rowid pickup_id) as [_|Hfits]; [constructor|].
        destruct (find _ _) as [p|] eqn:Hfind; [|constructor].
        apply find_pickup_elem in Hfind as [Hin Hid].
        destruct (Py.truthy _) eqn:Hs; cbn; [|constructor].
        apply (effect_status _ _ _ _ pickup_id u p); try done.
        by apply truthy_true.
      * rewrite (update_status_not_admin request pickup_id w u Hm Hp Hauth Hadm).
        constructor.
  - (* POST /register *)
    rewrite (register_post request w Hm Hp).
    destruct (Py.truthy (normalized_email request)) eqn:He; cbn; [|constructor].
    destruct (Py.truthy (submitted_password request)) eqn:Hpw; cbn; [|constructor].
    destruct (user_by_email _ _) eqn:Hfind; [constructor|].
    apply effect_register; try done; by apply truthy_true.
  - (* POST /login *)
    rewrite (login_post request w Hm Hp).
    destruct (user_by_email _ _) as [u|] eqn:Hfind; [|constructor].
    destruct (check_password u _) eqn:Hck; [|constructor].
    by apply (effect_login _ _ _ _ u).
Qed.

Lemma effect_head (request : Request) (w w' : World) :
  method request = HEAD →
  effect generate_password_hash check_password_hash (with_method GET request) w w' →
  effect generate_password_hash check_password_hash request w w'.
Proof.
  intros Hm Heff.
  destruct Heff as [| | |u _ Hp Hauth| |]; try done.
  - constructor.
  - apply (effect_logout _ _ _ _ u); [by rewrite Hm|done|done].
Qed.

Lemma handle_effect (request : Request) (w : World) :
  effect generate_password_hash check_password_hash request w (handle request w).2.
Proof.
  destruct (method request) eqn:Hm.
  - apply handle_effect_not_head. by rewrite Hm.
  - apply handle_effect_not_head. by rewrite Hm.
  - rewrite (handle_head request w Hm). apply effect_head; [done|].
    by apply handle_effect_not_head.
Qed.

(** X6: the tables change only on a POST to /schedule, to /register
    or to a status URL; every other request, every GET among them,
    leaves both tables as they are. *)
Theorem db_changed_only_by_posts (request : Request) (w : World) :
  db (handle request w).2 ≠ db w →
  method request = POST
  ∧ (path request = path_schedule ∨ path request = path_register
     ∨ ∃ pid, path request = path_status pid).
Proof.
  intros Hne. destruct (handle_effect request w); try done.
  - split; [done|]. right. by left.
  - split; [done|]. by left.
  - split; [done|]. right. right. by eexists.
Qed.

(** X7: the session changes only on a POST to /register or to /login
    and on /logout, sent with GET or with HEAD; scheduling, listing and
    status updates leave it as it is. *)
Theorem session_changed_only_by_accounts (request : Request) (w : World) :
  session (handle request w).2 ≠ session w →
  (method request = POST
   ∧ (path request = path_register ∨ path request = path_login))
  ∨ ((method request = GET ∨ method request = HEAD)
     ∧ path request = path_logout).
Proof.
  intros Hne. destruct (handle_effect request w) as [| | |u Hm Hp _| |]; try done.
  - left. split; [done|]. by left.
  - left. split; [done|]. by right.
  - right. split; [|done]. destruct (method request); [by left|done|by right].
Qed.

(** X8: a client that is not logged in as an administrator cannot
    touch an existing pickup: whatever it sends, the rows that were in
    the table are still there, unchanged and in the same order, followed
    by at most one new row. *)
Theorem non_admin_keeps_pickups (request : Request) (w : World) :
  (∀ u, authenticated w u → User.is_admin u = false) →
  pickups (db (handle request w).2) = pickups (db w)
  ∨ ∃ p, pickups (db (handle request w).2) = pickups (db w) ++ [p].
Proof.
  intros Hnot. destruct (handle_effect request w) as [| | | |u|pid u]; cbn;
    try by left.
  - right. by eexists.
  - specialize (Hnot u ltac:(done)). congruence.
Qed.

(** X9: a request adds at most one row to the two tables together
    and deletes none: the users that were there come first and are as
    they were, and the pickups that were there come first, in their
    order, each with all its columns but [status] as they were. *)
Theorem handle_adds_at_most_one_row (request : Request) (w : World) :
  ∃ new_users kept new_pickups,
    users (db (handle request w).2) = users (db w) ++ new_users
    ∧ pickups (db (handle request w).2) = kept ++ new_pickups
    ∧ Forall2 same_but_status (pickups (db w)) kept
    ∧ (length new_users + length new_pickups ≤ 1)%nat.
Proof.
  assert (Hrefl : Forall2 same_but_status (pickups (db w)) (pickups (db w))).
  { apply Forall_Forall2_diag, Forall_forall. intros p _.
    apply same_but_status_refl. }
  destruct (handle_db_step request w) as [|u _ _|p _ _|pid s]; cbn.
  - exists [], (pickups (db w)), []. rewrite !app_nil_r. cbn. repeat split; [done|lia].
  - exists [u], (pickups (db w)), []. rewrite app_nil_r. cbn. repeat split; [done|lia].
  - exists [], (pickups (db w)), [p]. rewrite app_nil_r. cbn. repeat split; [done|lia].
  - exists [], (with_status pid s (pickups (db w))), []. rewrite !app_nil_r. cbn.
    split; [done|]. split; [done|]. split; [|lia].
    eapply Forall2_impl; [apply (with_status_frame pid s)|]. by intros ? ? [? _].
Qed.

(** ** Sessions after registration and login *)

Lemma find_snoc_fresh {A} (f : A → bool) (l : list A) (x : A) :
  find f l = None → f x = true → find f (l ++ [x]) = Some x.
Proof.
  induction l as [|a l IH]; cbn.
  - by intros _ ->.
  - destruct (f a); [done|]. apply IH.
Qed.

Lemma find_user_fresh (us : list User.t) :
  find (λ u', User.id u' =? next_rowid (User.id <$> us)) us = None.
Proof.
  destruct (find _ us) as [u|] eqn:Hfind; [|done].
  apply find_some in Hfind as [Hin Hid%Z.eqb_eq]. apply list_elem_of_In in Hin.
  destruct (next_rowid_fresh (User.id <$> us)). rewrite <- Hid.
  apply list_elem_of_fmap. by exists u.
Qed.

Lemma find_user_NoDup (us : list User.t) (u : User.t) :
  NoDup (User.id <$> us) → u ∈ us →
  find (λ u', User.id u' =? User.id u) us = Some u.
Proof.
  induction us as [|a us IH]; [by intros _ ?%elem_of_nil|].
  rewrite fmap_cons. intros [Hfresh Hnd]%NoDup_cons [->|Hin]%elem_of_cons; cbn.
  - by rewrite Z.eqb_refl.
  - destruct (Z.eqb_spec (User.id a) (User.id u)) as [Heq|_]; [|by apply IH].
    destruct Hfresh. rewrite Heq. apply list_elem_of_fmap. by exists u.
Qed.

Lemma user_by_email_elem (d : DB) (email : string) (u : User.t) :
  user_by_email d email = Some u → u ∈ users d ∧ User.email u = email.
Proof.
  unfold user_by_email. intros [Hin Heq%String.eqb_eq]%find_some.
  split; [by apply list_elem_of_In|done].
Qed.

Lemma authenticated_same_users (w w' : World) (u : User.t) :
  users (db w') = users (db w) → session w' = session w →
  authenticated w u → authenticated w' u.
Proof.
  intros Hu Hs (uid & Hsess & Hfind)%authenticated_char.
  apply authenticated_char. exists uid. by rewrite Hs, Hu.
Qed.

(** X10: a registration that goes through logs the new user in: in
    the world it leaves, [current_user] is the row just created. *)
Theorem register_logs_in (request : Request) (w : World) :
  method request = POST → path request = path_register →
  normalized_email request ≠ "" → submitted_password request ≠ "" →
  user_by_email (db w) (normalized_email request) = None →
  ∃ u, users (db (handle request w).2) = users (db w) ++ [u]
       ∧ User.email u = normalized_email request
       ∧ authenticated (handle request w).2 u.
Proof.
  intros Hm Hp He%truthy_true Hpw%truthy_true Hfree.
  rewrite (register_post request w Hm Hp), He, Hpw, Hfree. cbn.
  exists (new_user request w). split; [done|]. split; [done|].
  apply authenticated_char. eexists. split; [reflexivity|]. cbn.
  apply find_snoc_fresh; [apply find_user_fresh|]. cbn. apply Z.eqb_refl.
Qed.

(** X11: registering and then logging in: after a registration that
    went through, a login from any session with the same normalized email
    and a password that verifies against the hash stored at registration
    is answered by the redirect home and sets the session to the new
    user. *)
Theorem register_then_login (r1 r2 : Request) (w : World) (s : option Z) :
  method r1 = POST → path r1 = path_register →
  normalized_email r1 ≠ "" → submitted_password r1 ≠ "" →
  user_by_email (db w) (normalized_email r1) = None →
  method r2 = POST → path r2 = path_login →
  normalized_email r2 = normalized_email r1 →
  check_password_hash
    (generate_password_hash (salt r1) (submitted_password r1))
    (submitted_password r2) = true →
  ∃ u, users (db (handle r1 w).2) = users (db w) ++ [u]
       ∧ handle r2 {| db := db (handle r1 w).2; session := s |}
         = (Redirect "/",
            {| db := db (handle r1 w).2; session := Some (User.id u) |}).
Proof.
  intros Hm1 Hp1 He%truthy_true Hpw%truthy_true Hfree Hm2 Hp2 Heq Hck.
  rewrite (register_post r1 w Hm1 Hp1), He, Hpw, Hfree. cbn.
  exists (new_user r1 w). split; [done|].
  rewrite (login_post r2 _ Hm2 Hp2). cbn. rewrite Heq.
  unfold user_by_email in *. cbn.
  rewrite (find_snoc_fresh _ _ (new_user r1 w) Hfree); cbn.
  - change (check_password (new_user r1 w) (submitted_password r2))
      with (check_password_hash
              (generate_password_hash (salt r1) (submitted_password r1))
              (submitted_password r2)).
    by rewrite Hck.
  - apply String.eqb_refl.
Qed.

(** X12: when the keys of the users table are unique, a login that
    goes through makes [current_user] the user whose email and password
    were given. *)
Theorem login_authenticates (request : Request) (w : World) (u : User.t) :
  wf_db (db w) →
  method request = POST → path request = path_login →
  user_by_email (db w) (normalized_email request) = Some u →
  check_password u (submitted_password request) = true →
  authenticated (handle request w).2 u.
Proof.
  intros Hwf Hm Hp Hfind Hck. rewrite (login_post request w Hm Hp), Hfind, Hck.
  apply authenticated_char. eexists. split; [reflexivity|]. cbn.
  apply find_user_NoDup; [apply Hwf|]. by apply user_by_email_elem in Hfind as [].
Qed.

(** X13: the users table only grows: after any requests of any
    clients the rows that were there come first, unchanged; so no account
    is ever deleted and no account's email, password hash or admin flag
    is ever changed. *)
Theorem users_only_appended (trace : list (option Z * Request)) (d : DB) :
  ∃ added, users (serve_all trace d) = users d ++ added.
Proof.
  revert d. induction trace as [|[s r] trace IH]; intros d; cbn.
  - exists []. by rewrite app_nil_r.
  - destruct (IH (db (handle r {| db := d; session := s |}).2)) as [added ->].
    destruct (handle_db_step r {| db := d; session := s |}); cbn.
    + by exists added.
    + eexists. by rewrite <- app_assoc.
    + by exists added.
    + by exists added.
Qed.

(** ** How the views compose *)

Lemma with_status_idem (pid : Z) (s : string) (rows : list Pickup.t) :
  with_status pid s (with_status pid s rows) = with_status pid s rows.
Proof.
  unfold with_status. rewrite <- list_fmap_compose. apply list_fmap_ext.
  intros i p _. cbn. destruct (Z.eqb_spec (Pickup.id p) pid) as [Heq|Hne]; cbn.
  - by rewrite Heq, Z.eqb_refl.
  - by destruct (Z.eqb_spec (Pickup.id p) pid).
Qed.

Lemma merge_sort_newest_first (l : list Pickup.t) (p : Pickup.t) :
  (∀ q, q ∈ l → Pickup.id q < Pickup.id p) →
  ∃ rest, merge_sort id_desc (l ++ [p]) = p :: rest.
Proof.
  intros Hnew.
  pose proof (merge_sort_Permutation id_desc (l ++ [p])) as Hperm.
  pose proof (StronglySorted_merge_sort id_desc (l ++ [p])) as Hsorted.
  destruct (merge_sort id_desc (l ++ [p])) as [|h t].
  - apply Permutation_nil_l in Hperm. by destruct l.
  - assert (Hp : p ∈ h :: t).
    { rewrite Hperm. apply elem_of_app. right. by apply list_elem_of_singleton. }
    assert (Hh : h ∈ l ++ [p]).
    { rewrite <- Hperm. by left. }
    apply elem_of_app in Hh as [Hh| ->%list_elem_of_singleton]; [|by exists t].
    specialize (Hnew h Hh).
    apply elem_of_cons in Hp as [->|Hp]; [lia|].
    apply StronglySorted_inv in Hsorted as [_ Hall].
    rewrite Forall_forall in Hall. specialize (Hall p Hp). unfold id_desc in Hall. lia.
Qed.

Lemma new_pickup_newest (request : Request) (uid : Z) (w : World) (q : Pickup.t) :
  q ∈ pickups (db w) → Pickup.id q < Pickup.id (new_pickup request uid w).
Proof.
  intros Hin. cbn. apply next_rowid_above, list_elem_of_fmap. by exists q.
Qed.

Lemma update_status_admin_handle
    (request : Request) (pid : Z) (w : World) (u : User.t) :
  method request = POST → path request = path_status pid →
  authenticated w u → User.is_admin u = true →
  handle request w =
    if max_rowid <? pid then (ErrorPage 500, w)
    else
      match find (λ p, Pickup.id p =? pid) (pickups (db w)) with
      | None => (ErrorPage 404, w)
      | Some _ =>
          (Redirect "/requests",
           if Py.truthy (field request "status")
           then {| db := {| users := users (db w);
                            pickups := with_status pid (field request "status")
                                         (pickups (db w)) |};
                   session := session w |}
           else w)
      end.
Proof.
  intros Hm Hp Hauth Hadm. unfold handle. rewrite Hm, Hp. cbn.
  rewrite (update_status_admin request pid w u Hauth Hadm).
  destruct (max_rowid <? pid); [done|]. by destruct (find _ _).
Qed.

(** X14: an administrator's status update shows in the listing that
    follows: after an update of an existing pickup (its key one the
    storage can hold) with a status that is not empty after trimming, the
    page of /requests holds the pickup with the trimmed status, and every
    row of that key carries it. *)
Theorem status_update_shows_in_listing
    (r1 r2 : Request) (pid : Z) (w : World) (u : User.t) (p : Pickup.t) :
  method r1 = POST → path r1 = path_status pid →
  authenticated w u → User.is_admin u = true →
  p ∈ pickups (db w) → Pickup.id p = pid → pid ≤ max_rowid →
  Py.strip (Py.or_empty (form_get (form r1) "status")) ≠ "" →
  method r2 = GET → path r2 = path_requests →
  ∃ listing,
    handle r2 (handle r1 w).2
      = (render_template_string admin_html [("requests", VRows listing)],
         (handle r1 w).2)
    ∧ Pickup.set_status p (Py.strip (Py.or_empty (form_get (form r1) "status")))
      ∈ listing
    ∧ ∀ q, q ∈ listing → Pickup.id q = pid →
           Pickup.status q = Py.strip (Py.or_empty (form_get (form r1) "status")).
Proof.
  intros Hm1 Hp1 Hauth Hadm Hin Hid Hfits%within_max_rowid Hs%truthy_true Hm2 Hp2.
  fold (field r1 "status") in *.
  rewrite (update_status_admin_handle r1 pid w u Hm1 Hp1 Hauth Hadm), Hfits.
  destruct (find_pickup_Some pid _ p Hin Hid) as (p0 & -> & _). rewrite Hs.
  set (w' := {| db := _; session := session w |}). cbn.
  assert (Hauth' : authenticated w' u) by by apply (authenticated_same_users w).
  rewrite (admin_requests_authenticated r2 w' u Hm2 Hp2 Hauth'), Hadm.
  eexists. split; [reflexivity|]. split.
  - rewrite merge_sort_Permutation. by apply with_status_elem.
  - intros q. rewrite merge_sort_Permutation. apply with_status_target.
Qed.

(** X15: sending a status update twice is the same as sending it
    once, for every client: the second time the answer and the world are
    those of the first. *)
Theorem update_status_idempotent (request : Request) (pid : Z) (w : World) :
  method request = POST → path request = path_status pid →
  handle request (handle request w).2 = handle request w.
Proof.
  intros Hm Hp.
  destruct (current_user_cases w) as [Hanon|[u Hauth]].
  { rewrite (update_status_anonymous request pid w Hm Hp Hanon). cbn.
    by rewrite (update_status_anonymous request pid w Hm Hp Hanon). }
  destruct (User.is_admin u) eqn:Hadm.
  2:{ rewrite (update_status_not_admin request pid w u Hm Hp Hauth Hadm). cbn.
      by rewrite (update_status_not_admin request pid w u Hm Hp Hauth Hadm). }
  rewrite (update_status_admin_handle request pid w u Hm Hp Hauth Hadm).
  destruct (max_rowid <? pid) eqn:Hfits.
  { cbn. rewrite (update_status_admin_handle request pid w u Hm Hp Hauth Hadm).
    by rewrite Hfits. }
  destruct (find _ _) as [p|] eqn:Hfind.
  2:{ cbn. rewrite (update_status_admin_handle request pid w u Hm Hp Hauth Hadm).
      by rewrite Hfits, Hfind. }
  apply find_pickup_elem in Hfind as [Hin Hid].
  destruct (Py.truthy _) eqn:Hs; cbn.
  2:{ rewrite (update_status_admin_handle request pid w u Hm Hp Hauth Hadm), Hfits, Hs.
      by destruct (find_pickup_Some pid _ p Hin Hid) as (p0 & -> & _). }
  set (w' := {| db := _; session := session w |}).
  assert (Hauth' : authenticated w' u) by by apply (authenticated_same_users w).
  rewrite (update_status_admin_handle request pid w' u Hm Hp Hauth' Hadm), Hfits, Hs.
  cbn.
  destruct (find_pickup_Some pid (with_status pid (field request "status")
                                   (pickups (db w)))
              (Pickup.set_status p (field request "status")))
    as (p0 & -> & _); [by apply with_status_elem|done|].
  fold (with_status pid (field request "status")
          (with_status pid (field request "status") (pickups (db w)))).
  by rewrite with_status_idem.
Qed.

(** X16: a pickup just scheduled is the first row of its owner's
    /my-pickups page. *)
Theorem scheduled_pickup_heads_own_listing
    (r1 r2 : Request) (w : World) (u : User.t) :
  method r1 = POST → path r1 = path_schedule →
  authenticated w u →
  method r2 = GET → path r2 = path_my_pickups →
  ∃ p rest,
    pickups (db (handle r1 w).2) = pickups (db w) ++ [p]
    ∧ handle r2 (handle r1 w).2
      = (render_template_string my_pickups_html [("requests", VRows (p :: rest))],
         (handle r1 w).2).
Proof.
  intros Hm1 Hp1 Hauth Hm2 Hp2.
  rewrite (schedule_post_authenticated r1 w u Hm1 Hp1 Hauth).
  set (w' := {| db := _; session := session w |}). cbn.
  assert (Hauth' : authenticated w' u) by by apply (authenticated_same_users w).
  rewrite (my_pickups_authenticated r2 w' u Hm2 Hp2 Hauth').
  exists (new_pickup r1 (User.id u) w).
  unfold own_pickups. cbn. rewrite filter_app, filter_cons_True by done.
  rewrite filter_nil.
  destruct (merge_sort_newest_first
              (filter (λ p, Pickup.user_id p = User.id u) (pickups (db w)))
              (new_pickup r1 (User.id u) w)) as [rest Hrest].
  - intros q [_ Hin]%list_elem_of_filter. by apply new_pickup_newest.
  - exists rest. split; [done|]. by rewrite Hrest.
Qed.

(** X17: a pickup just scheduled is the first row of the
    administrator's listing, whichever administrator asks for it. *)
Theorem scheduled_pickup_heads_admin_listing
    (r1 r2 : Request) (w : World) (u a : User.t) (s : option Z) :
  method r1 = POST → path r1 = path_schedule →
  authenticated w u →
  method r2 = GET → path r2 = path_requests →
  authenticated {| db := db (handle r1 w).2; session := s |} a →
  User.is_admin a = true →
  ∃ p rest,
    pickups (db (handle r1 w).2) = pickups (db w) ++ [p]
    ∧ Pickup.user_id p = User.id u
    ∧ (handle r2 {| db := db (handle r1 w).2; session := s |}).1
      = render_template_string admin_html [("requests", VRows (p :: rest))].
Proof.
  intros Hm1 Hp1 Hauth Hm2 Hp2 Hadmin Hflag.
  rewrite (admin_requests_authenticated r2 _ a Hm2 Hp2 Hadmin), Hflag.
  rewrite (schedule_post_authenticated r1 w u Hm1 Hp1 Hauth). cbn.
  destruct (merge_sort_newest_first (pickups (db w)) (new_pickup r1 (User.id u) w))
    as [rest Hrest]; [intros q; apply new_pickup_newest|].
  exists (new_pickup r1 (User.id u) w), rest. by rewrite Hrest.
Qed.

(** X19: the constraints the schema declares are kept by the
    application itself: if both primary keys and the emails are unique
    and every pickup is owned by an existing user, then after any
    requests of any clients this is still so; no request can run into a
    constraint of the storage. *)
Theorem schema_constraints_kept (trace : list (option Z * Request)) (d : DB) :
  wf_db d → wf_db (serve_all trace d).
Proof. apply serve_all_preserves_wf. Qed.

(** ** What becomes of the pickup rows *)

Lemma same_but_status_trans (p q r : Pickup.t) :
  same_but_status p q → same_but_status q r → same_but_status p r.
Proof.
  unfold same_but_status. intros (?&?&?&?&?&?&?) (?&?&?&?&?&?&?).
  repeat split; congruence.
Qed.

Lemma db_step_keeps_rows (d d' : DB) (p : Pickup.t) :
  db_step d d' → p ∈ pickups d →
  ∃ p', p' ∈ pickups d' ∧ same_but_status p p'.
Proof.
  intros Hstep Hin. destruct Hstep as [|u _ _|q _ _|pid s]; cbn.
  - exists p. split; [done|apply same_but_status_refl].
  - exists p. split; [done|apply same_but_status_refl].
  - exists p. split; [|apply same_but_status_refl]. apply elem_of_app. by left.
  - exists (if Pickup.id p =? pid then Pickup.set_status p s else p). split.
    + unfold with_status. apply list_elem_of_fmap. by exists p.
    + destruct (Pickup.id p =? pid);
        [apply same_but_status_set|apply same_but_status_refl].
Qed.

(** X21: no pickup is ever deleted, and nothing but its status ever
    changes: after any requests of any clients, every row that was in the
    table has a row with the same key, owner, name, email, address, item
    and date. *)
Theorem pickups_persist
    (trace : list (option Z * Request)) (d : DB) (p : Pickup.t) :
  p ∈ pickups d →
  ∃ p', p' ∈ pickups (serve_all trace d) ∧ same_but_status p p'.
Proof.
  revert d p. induction trace as [|[s r] trace IH]; intros d p Hin; cbn.
  - exists p. split; [done|apply same_but_status_refl].
  - destruct (db_step_keeps_rows _ _ p
                (handle_db_step r {| db := d; session := s |}) Hin)
      as (p1 & Hin1 & Hsame1).
    destruct (IH _ p1 Hin1) as (p' & Hin' & Hsame').
    exists p'. split; [done|]. by apply (same_but_status_trans p p1 p').
Qed.



(** X23: a client that is not logged in can neither create nor
    change a pickup, on any route: whatever it sends, the pickups table
    is left as it is. *)
Theorem anonymous_keeps_pickups (request : Request) (w : World) :
  anonymous w → pickups (db (handle request w).2) = pickups (db w).
Proof.
  intros Hanon.
  assert (Hno : ∀ u, ¬ authenticated w u).
  { intros u Hauth. unfold anonymous, authenticated in *. congruence. }
  destruct (handle_effect request w) as [| | | |u|pid u p]; try done.
  - by destruct (Hno u).
  - by destruct (Hno u).
Qed.

End Served.

(** The scenario of the specification, run on the model: a visitor
    registers, schedules a pickup and is shown its key; the listing of an
    administrator who registers next shows one row, with the status
    [Scheduled]. *)
Example scenario_register_schedule_list :
  let w1 := (sample_handle
               (post path_register [("email", "a@x.com"); ("password", "pw1")])
               visitor).2 in
  let r2 := sample_handle
              (post path_schedule
                 [("name", "A"); ("email", "a@x.com"); ("address", "1 St");
                  ("item", "Laptop"); ("date", "2024-01-01")]) w1 in
  let w3 := (sample_handle
               (post path_register
                  [("email", "root@x.com"); ("password", "secret");
                   ("is_admin", "on")]) r2.2).2 in
  body_text r2.1 = "Pickup request #1 created for A"
  ∧ (sample_handle (get path_requests) w3).1
    = render_template_string admin_html
        [("requests",
          VRows [{| Pickup.id := 1; Pickup.user_id := 1; Pickup.name := "A";
                    Pickup.email := "a@x.com"; Pickup.address := "1 St";
                    Pickup.item := "Laptop"; Pickup.date := "2024-01-01";
                    Pickup.status := "Scheduled" |}])].
Proof. split; reflexivity. Qed.

(** ** Text outside ASCII, run on the model

    The strings below hold U+00A0 (no-break space), U+3000 (ideographic
    space), U+00C9 and U+00E9 (E with acute), U+212A (Kelvin sign),
    U+0130 (capital I with dot above, whose lowercase is i followed by
    U+0307) and Greek capitals with sigma inside and at the end of a
    word. *)

Example strip_lower_outside_ascii :
  Py.strip (nbsp +:+ "B" +:+ nbsp) = "B"
  ∧ Py.strip nbsp = ""
  ∧ Py.strip ("　x ") = "x"
  ∧ Py.lower "É@X.com" = "é@x.com"
  ∧ Py.lower "K" = "k"
  ∧ Py.lower "İ" = "i̇"
  ∧ Py.lower "ΟΔΟΣ ΣΟΦΟΣ" = "οδος σοφος".
Proof. repeat split. Qed.

(** A second registration whose email differs from that of the first
    only by the case of a letter outside ASCII is turned down. *)
Example register_twice_outside_ascii :
  (sample_handle (post path_register [("email", "é@x.com"); ("password", "pw")])
     {| db := accented_db; session := None |}).1 = register_form
  ∧ (sample_handle (post path_register [("email", "É@X.COM "); ("password", "pw")])
       {| db := accented_db; session := None |}).2
    = {| db := accented_db; session := None |}.
Proof. split; reflexivity. Qed.

(** A status that is white space only, ASCII or not, is not stored. *)
Example update_status_space_only :
  sample_handle (post (path_status 1) [("status", nbsp +:+ " ")]) (client (Some 1))
  = (Redirect "/requests", client (Some 1)).
Proof. reflexivity. Qed.

(** HEAD is served by the view of GET: HEAD /logout ends the session. *)
Example head_logout :
  sample_handle {| method := HEAD; path := path_logout; form := []; salt := "s" |}
    (client (Some 2))
  = (Redirect "/", client None).
Proof. reflexivity. Qed.

(** * The theorems on sample data *)

Lemma schedule_post_anonymous_no_pickup_witness :
  pickups (db (sample_handle (post path_schedule schedule_form) (client None)).2)
  = [sample_pickup].
Proof.
  apply (schedule_post_anonymous_no_pickup sample_generate sample_check
           (post path_schedule schedule_form) (client None));
    reflexivity.
Defined.

Lemma schedule_post_creates_pickup_witness :
  ∃ p : Pickup.t,
    pickups (db (sample_handle (post path_schedule schedule_form)
                   (client (Some 3))).2) = [sample_pickup; p]
    ∧ Pickup.user_id p = 3 ∧ Pickup.name p = "B" ∧ Pickup.status p = "Scheduled"
    ∧ occurs_in (Py.str_of_int (Pickup.id p))
        (body_text (sample_handle (post path_schedule schedule_form)
                      (client (Some 3))).1).
Proof.
  destruct (schedule_post_creates_pickup sample_generate sample_check
              (post path_schedule schedule_form) (client (Some 3))
              (sample_handle (post path_schedule schedule_form) (client (Some 3))).2
              sample_bob
              (sample_handle (post path_schedule schedule_form) (client (Some 3))).1
              eq_refl eq_refl eq_refl eq_refl)
    as (p & Hrows & _ & _ & Hown & Hname & _ & _ & _ & _ & Hstatus & _ & Hpage).
  exists p. repeat split; assumption.
Defined.

Lemma admin_requests_listing_witness :
  sample_handle (get path_requests) (client (Some 2)) = (Redirect "/", client (Some 2))
  ∧ ∃ listing,
      sample_handle (get path_requests) (client (Some 1)) =
        (render_template_string admin_html [("requests", VRows listing)],
         client (Some 1))
      ∧ listing ≡ₚ [sample_pickup].
Proof.
  split.
  - apply (admin_requests_listing sample_generate sample_check
             (get path_requests) (client (Some 2)) sample_alice);
      reflexivity.
  - destruct (admin_requests_listing sample_generate sample_check
                (get path_requests) (client (Some 1)) sample_admin
                eq_refl eq_refl eq_refl) as [_ Hadmin].
    destruct (Hadmin eq_refl) as (listing & Hrun & Hperm & _).
    exists listing. split; assumption.
Defined.

Lemma my_pickups_own_witness :
  ∃ mine,
    sample_handle (get path_my_pickups) (client (Some 3)) =
      (render_template_string my_pickups_html [("requests", VRows mine)],
       client (Some 3))
    ∧ sample_pickup ∉ mine.
Proof.
  destruct (my_pickups_own sample_generate sample_check
              (get path_my_pickups) (client (Some 3)) sample_bob
              eq_refl eq_refl eq_refl) as (mine & Hrun & _ & _ & _ & Hother).
  exists mine. split; [assumption|].
  apply (Hother sample_alice sample_pickup); [cbn; lia|reflexivity].
Defined.



Lemma update_status_frame_witness :
  users (db (sample_handle (post (path_status 1) [("status", "Picked")])
               (client (Some 1))).2) = users sample_db
  ∧ Forall2 (λ q q', same_but_status q q' ∧ (Pickup.id q ≠ 1 → q' = q))
      [sample_pickup]
      (pickups (db (sample_handle (post (path_status 1) [("status", "Picked")])
                      (client (Some 1))).2)).
Proof.
  apply (update_status_frame sample_generate sample_check
           (post (path_status 1) [("status", "Picked")]) 1 (client (Some 1))
           sample_admin sample_pickup); try reflexivity.
  apply list_elem_of_singleton. reflexivity.
Defined.

(** C4 as the claim words it fails: the string [" Recycled"] is
    submitted by an administrator for an existing pickup, it is not empty
    after trimming, and the status stored differs from it. *)
Lemma update_status_not_verbatim :
  authenticated (client (Some 1)) sample_admin
  ∧ User.is_admin sample_admin = true
  ∧ sample_pickup ∈ pickups (db (client (Some 1)))
  ∧ form_get (form (post (path_status 1) [("status", " Recycled")])) "status"
      = Some " Recycled"
  ∧ Py.strip " Recycled" ≠ ""
  ∧ pickups (db (sample_handle (post (path_status 1) [("status", " Recycled")])
                   (client (Some 1))).2)
      = [Pickup.set_status sample_pickup "Recycled"]
  ∧ Pickup.status (Pickup.set_status sample_pickup "Recycled") ≠ " Recycled".
Proof.
  split; [reflexivity|]. split; [reflexivity|].
  split; [apply list_elem_of_singleton; reflexivity|].
  split; [reflexivity|]. split; [discriminate|].
  split; [reflexivity|discriminate].
Qed.

Lemma update_status_persists_trimmed_witness :
  Pickup.set_status sample_pickup "Recycled"
  ∈ pickups (db (sample_handle
                   (post (path_status 1) [("status", nbsp +:+ "Recycled" +:+ nbsp)])
                   (client (Some 1))).2).
Proof.
  destruct (update_status_persists_trimmed sample_generate sample_check
              (post (path_status 1) [("status", nbsp +:+ "Recycled" +:+ nbsp)])
              1 (client (Some 1))
              sample_admin sample_pickup eq_refl eq_refl eq_refl eq_refl)
    as [Hset _].
  - apply list_elem_of_singleton. reflexivity.
  - reflexivity.
  - unfold max_rowid. lia.
  - destruct Hset as [Hin _]; [discriminate|]. exact Hin.
Defined.

(** C2 as the claim words it fails: two submissions with the same
    normalized email, the first without a password; the second one
    creates a user and logs it in. *)
Lemma register_second_after_refused_first :
  normalized_email first_without_password = normalized_email second_with_password
  ∧ (sample_handle first_without_password (client None)).2 = client None
  ∧ (sample_handle second_with_password (client None)).1 = Redirect "/"
  ∧ users (db (sample_handle second_with_password (client None)).2)
      = users sample_db
        ++ [{| User.id := 4; User.email := "c@x.com";
               User.password_hash := "s$pw3"; User.is_admin := false |}]
  ∧ session (sample_handle second_with_password (client None)).2 = Some 4.
Proof. repeat split. Qed.

Lemma register_twice_one_user_witness :
  sample_handle (post path_register [("email", " é@X.com "); ("password", "other")])
    {| db := db (sample_handle
                   (post path_register [("email", "É@x.com"); ("password", "pw1")])
                   visitor).2;
       session := None |}
  = (register_form,
     {| db := db (sample_handle
                    (post path_register [("email", "É@x.com"); ("password", "pw1")])
                    visitor).2;
        session := None |}).
Proof.
  apply (register_twice_one_user sample_generate sample_check
           (post path_register [("email", "É@x.com"); ("password", "pw1")])
           (post path_register [("email", " é@X.com "); ("password", "other")])
           visitor None eq_refl eq_refl eq_refl eq_refl eq_refl).
  discriminate.
Defined.

Lemma login_only_when_verified_witness :
  sample_handle (post path_login [("email", "a@x.com"); ("password", "wrong")])
    (client None)
  = (login_form, client None)
  ∧ sample_handle (post path_login [("email", " A@x.com"); ("password", "pw1")])
      (client None)
    = (Redirect "/", client (Some 2))
  ∧ sample_handle (post path_login [("email", "É@X.com"); ("password", "pw5")])
      {| db := accented_db; session := None |}
    = (Redirect "/", {| db := accented_db; session := Some 1 |}).
Proof.
  split; [|split].
  - apply (login_only_when_verified sample_generate sample_check
             (post path_login [("email", "a@x.com"); ("password", "wrong")])
             (client None) eq_refl eq_refl).
    intros u [= <-]. reflexivity.
  - destruct (login_only_when_verified sample_generate sample_check
                (post path_login [("email", " A@x.com"); ("password", "pw1")])
                (client None) eq_refl eq_refl) as (_ & Hok & _).
    apply (Hok sample_alice); reflexivity.
  - destruct (login_only_when_verified sample_generate sample_check
                (post path_login [("email", "É@X.com"); ("password", "pw5")])
                {| db := accented_db; session := None |} eq_refl eq_refl)
      as (_ & Hok & _).
    apply (Hok accented_user); reflexivity.
Defined.

(** C10 as the claim words it fails: the form carries an [is_admin]
    field, with an empty value, and the user created is no
    administrator. *)
Lemma register_empty_is_admin_field :
  form_has (form (post path_register
                    [("email", "c@x.com"); ("password", "pw3"); ("is_admin", "")]))
    "is_admin" = true
  ∧ sample_handle (post path_register
                     [("email", "c@x.com"); ("password", "pw3"); ("is_admin", "")])
      visitor
    = (Redirect "/",
       {| db := {| users := [{| User.id := 1; User.email := "c@x.com";
                                User.password_hash := "s$pw3";
                                User.is_admin := false |}];
                   pickups := [] |};
          session := Some 1 |}).
Proof. split; reflexivity. Qed.

Lemma register_admin_flag_witness :
  ∃ u,
    sample_handle (post path_register
                     [("email", "c@x.com"); ("password", "pw3"); ("is_admin", "on")])
      visitor
    = (Redirect "/",
       {| db := {| users := [u]; pickups := [] |}; session := Some (User.id u) |})
    ∧ User.is_admin u = true.
Proof.
  destruct (register_admin_flag sample_generate sample_check
              (post path_register
                 [("email", "c@x.com"); ("password", "pw3"); ("is_admin", "on")])
              visitor eq_refl eq_refl)
    as (u & Hrun & _ & Hflag); [discriminate|discriminate|reflexivity|].
  exists u. split; assumption.
Defined.

(** ** The further properties on sample data *)

Lemma sample_db_wf : wf_db sample_db.
Proof.
  split; cbn.
  - by apply (bool_decide_unpack _).
  - by apply (bool_decide_unpack _).
  - by apply (bool_decide_unpack _).
  - intros p ->%list_elem_of_singleton. by apply (bool_decide_unpack _).
Qed.


Lemma logout_ends_session_witness :
  sample_handle (get path_logout) (client (Some 2)) = (Redirect "/", client None).
Proof.
  destruct (logout_ends_session sample_generate sample_check
              (get path_logout) (client (Some 2)) eq_refl eq_refl)
    as (_ & _ & Hin & _).
  apply (Hin sample_alice). reflexivity.
Defined.

Lemma my_pickups_requires_login_witness :
  sample_handle (get path_my_pickups) (client None) = (Redirect "/login", client None).
Proof.
  apply (my_pickups_requires_login sample_generate sample_check
           (get path_my_pickups) (client None)); reflexivity.
Defined.

Lemma admin_routes_anonymous_500_witness :
  sample_handle (post (path_status 1) [("status", "Picked")]) (client None)
  = (ErrorPage 500, client None).
Proof.
  apply (admin_routes_anonymous_500 sample_generate sample_check
           (post (path_status 1) [("status", "Picked")]) 1 (client None));
    [reflexivity|]. right. split; reflexivity.
Defined.

Lemma update_status_refused_for_non_admin_witness :
  sample_handle (post (path_status 1) [("status", "Picked")]) (client (Some 2))
  = (Redirect "/", client (Some 2)).
Proof.
  apply (update_status_refused_for_non_admin sample_generate sample_check
           (post (path_status 1) [("status", "Picked")]) 1 (client (Some 2))
           sample_alice); reflexivity.
Defined.

Lemma register_refuses_empty_witness :
  sample_handle (post path_register [("email", nbsp); ("password", "pw")]) visitor
  = (register_form, visitor).
Proof.
  apply (register_refuses_empty sample_generate sample_check
           (post path_register [("email", nbsp); ("password", "pw")]) visitor);
    [reflexivity|reflexivity|].
  left. reflexivity.
Defined.

Lemma db_changed_only_by_posts_witness :
  method (post path_schedule schedule_form) = POST
  ∧ (path (post path_schedule schedule_form) = path_schedule
     ∨ path (post path_schedule schedule_form) = path_register
     ∨ ∃ pid, path (post path_schedule schedule_form) = path_status pid).
Proof.
  apply (db_changed_only_by_posts sample_generate sample_check
           (post path_schedule schedule_form) (client (Some 3))).
  discriminate.
Defined.

Lemma session_changed_only_by_accounts_witness :
  (method (get path_logout) = POST
   ∧ (path (get path_logout) = path_register ∨ path (get path_logout) = path_login))
  ∨ ((method (get path_logout) = GET ∨ method (get path_logout) = HEAD)
     ∧ path (get path_logout) = path_logout).
Proof.
  apply (session_changed_only_by_accounts sample_generate sample_check
           (get path_logout) (client (Some 2))).
  discriminate.
Defined.

Lemma non_admin_keeps_pickups_witness :
  pickups (db (sample_handle (post (path_status 1) [("status", "Picked")])
                 (client (Some 2))).2) = [sample_pickup]
  ∨ ∃ p, pickups (db (sample_handle (post (path_status 1) [("status", "Picked")])
                        (client (Some 2))).2) = [sample_pickup] ++ [p].
Proof.
  apply (non_admin_keeps_pickups sample_generate sample_check
           (post (path_status 1) [("status", "Picked")]) (client (Some 2))).
  intros u Hauth. injection Hauth as <-. reflexivity.
Defined.

Lemma register_logs_in_witness :
  ∃ u, users (db (sample_handle second_with_password (client None)).2)
         = users sample_db ++ [u]
       ∧ User.email u = "c@x.com"
       ∧ authenticated (sample_handle second_with_password (client None)).2 u.
Proof.
  apply (register_logs_in sample_generate sample_check
           second_with_password (client None));
    [reflexivity|reflexivity|discriminate|discriminate|reflexivity].
Defined.

Lemma register_then_login_witness :
  ∃ u, users (db (sample_handle second_with_password (client None)).2)
         = users sample_db ++ [u]
       ∧ sample_handle (post path_login [("email", "C@x.com"); ("password", "pw3")])
           {| db := db (sample_handle second_with_password (client None)).2;
              session := Some 2 |}
         = (Redirect "/",
            {| db := db (sample_handle second_with_password (client None)).2;
               session := Some (User.id u) |}).
Proof.
  apply (register_then_login sample_generate sample_check
           second_with_password
           (post path_login [("email", "C@x.com"); ("password", "pw3")])
           (client None) (Some 2));
    try reflexivity; discriminate.
Defined.

Lemma login_authenticates_witness :
  authenticated
    (sample_handle (post path_login [("email", "A@x.com "); ("password", "pw1")])
       (client None)).2
    sample_alice.
Proof.
  apply (login_authenticates sample_generate sample_check
           (post path_login [("email", "A@x.com "); ("password", "pw1")])
           (client None) sample_alice sample_db_wf); reflexivity.
Defined.

Lemma status_update_shows_in_listing_witness :
  ∃ listing,
    sample_handle (get path_requests)
      (sample_handle (post (path_status 1) [("status", " Picked ")])
         (client (Some 1))).2
    = (render_template_string admin_html [("requests", VRows listing)],
       (sample_handle (post (path_status 1) [("status", " Picked ")])
          (client (Some 1))).2)
    ∧ Pickup.set_status sample_pickup "Picked" ∈ listing.
Proof.
  destruct (status_update_shows_in_listing sample_generate sample_check
              (post (path_status 1) [("status", " Picked ")]) (get path_requests)
              1 (client (Some 1)) sample_admin sample_pickup
              eq_refl eq_refl eq_refl eq_refl)
    as (listing & Hrun & Hin & _);
    [apply list_elem_of_singleton; reflexivity|reflexivity|unfold max_rowid; lia
    |discriminate|reflexivity|reflexivity|].
  exists listing. split; assumption.
Defined.

Lemma update_status_idempotent_witness :
  sample_handle (post (path_status 1) [("status", " Picked ")])
    (sample_handle (post (path_status 1) [("status", " Picked ")])
       (client (Some 1))).2
  = sample_handle (post (path_status 1) [("status", " Picked ")]) (client (Some 1)).
Proof.
  apply (update_status_idempotent sample_generate sample_check
           (post (path_status 1) [("status", " Picked ")]) 1 (client (Some 1)));
    reflexivity.
Defined.

Lemma scheduled_pickup_heads_own_listing_witness :
  ∃ p rest,
    pickups (db (sample_handle (post path_schedule schedule_form)
                   (client (Some 2))).2) = [sample_pickup] ++ [p]
    ∧ sample_handle (get path_my_pickups)
        (sample_handle (post path_schedule schedule_form) (client (Some 2))).2
      = (render_template_string my_pickups_html [("requests", VRows (p :: rest))],
         (sample_handle (post path_schedule schedule_form) (client (Some 2))).2).
Proof.
  apply (scheduled_pickup_heads_own_listing sample_generate sample_check
           (post path_schedule schedule_form) (get path_my_pickups)
           (client (Some 2)) sample_alice); reflexivity.
Defined.

Lemma scheduled_pickup_heads_admin_listing_witness :
  ∃ p rest,
    pickups (db (sample_handle (post path_schedule schedule_form)
                   (client (Some 3))).2) = [sample_pickup] ++ [p]
    ∧ Pickup.user_id p = 3
    ∧ (sample_handle (get path_requests)
         {| db := db (sample_handle (post path_schedule schedule_form)
                        (client (Some 3))).2;
            session := Some 1 |}).1
      = render_template_string admin_html [("requests", VRows (p :: rest))].
Proof.
  apply (scheduled_pickup_heads_admin_listing sample_generate sample_check
           (post path_schedule schedule_form) (get path_requests)
           (client (Some 3)) sample_bob sample_admin (Some 1)); reflexivity.
Defined.

Lemma schema_constraints_kept_witness : wf_db sample_served.
Proof.
  apply (schema_constraints_kept sample_generate sample_check sample_trace
           sample_db sample_db_wf).
Defined.

Lemma other_users_pickup_never_listed_witness :
  ∃ mine,
    (sample_handle (get path_my_pickups)
       {| db := sample_served; session := Some 3 |}).1
    = render_template_string my_pickups_html [("requests", VRows mine)]
    ∧ 1 ∉ Pickup.id <$> mine.
Proof.
  apply (other_users_pickup_never_listed sample_generate sample_check
           sample_trace sample_db 1 2 (get path_my_pickups) (Some 3) sample_bob);
    try reflexivity.
  - split; [apply list_elem_of_singleton; reflexivity|].
    intros p ->%list_elem_of_singleton _. reflexivity.
  - discriminate.
Defined.

Lemma pickups_persist_witness :
  ∃ p', p' ∈ pickups sample_served ∧ same_but_status sample_pickup p'.
Proof.
  apply (pickups_persist sample_generate sample_check sample_trace sample_db
           sample_pickup).
  apply list_elem_of_singleton. reflexivity.
Defined.


Lemma anonymous_keeps_pickups_witness :
  pickups (db (sample_handle (post path_schedule schedule_form) (client None)).2)
  = pickups (db (client None)).
Proof.
  apply (anonymous_keeps_pickups sample_generate sample_check
           (post path_schedule schedule_form) (client None)).
  reflexivity.
Defined.
